(** * TaxAgent: document pipeline and progressive tax engine

    A shallow embedding of [backend/app/services/tax_calculator.py],
    [backend/app/services/document_processor.py] and of the aggregation loop
    of [backend/app/routes/calculate.py].

    Numbers.  The code is embedded twice.  First with Python's [int] and
    [float] amounts as exact rationals ([Q]), [float('inf')] being the
    extra point [Infinity] of [bound]: this is the arithmetic of the code
    without the rounding, NaN and overflow of IEEE doubles.  Then, in
    [Binary64], with the numbers of Python themselves: an [int] of any
    size, and a [float] that is a binary64 value of the machine.

    Text.  Python's [str] is modelled as [string] over ASCII code points. *)

From Stdlib Require Import QArith Qminmax Qround ZArith Lia Lqa Floats.
From Stdlib Require Import List Permutation Sorted.
From Stdlib Require Import Ascii String.
From stdpp Require Import gmap strings.
Import ListNotations.

Local Open Scope Q_scope.

Set Warnings "-inexact-float".

(** ** Python builtins on numbers *)

Module Py.

(** [a < b] on numbers, as a boolean. *)
Definition ltb (a b : Q) : bool := negb (Qle_bool b a).

(** [min(a, b)]: the first argument unless the second is strictly smaller. *)
Definition min (a b : Q) : Q := if ltb b a then b else a.

(** [max(a, b)]: the first argument unless the second is strictly larger. *)
Definition max (a b : Q) : Q := if ltb a b then b else a.

(** A number that may be [float('inf')]. *)
Inductive bound : Type :=
| Finite (q : Q)
| Infinity.

(** [b - q] where [b] may be infinite: [inf - q] is [inf]. *)
Definition bound_sub (b : bound) (q : Q) : bound :=
  match b with
  | Finite m => Finite (m - q)
  | Infinity => Infinity
  end.

(** [min(a, b)] where [b] may be infinite: [inf < a] never holds. *)
Definition min_bound (a : Q) (b : bound) : Q :=
  match b with
  | Finite m => min a m
  | Infinity => a
  end.


(** [b <= q] in the extended order. *)
Definition bound_le (b : bound) (q : Q) : Prop :=
  match b with
  | Finite m => m <= q
  | Infinity => False
  end.

End Py.

Import Py.

(** ** tax_calculator.py *)

Inductive FilingStatus : Type :=
| SINGLE
| MARRIED
| HEAD_OF_HOUSEHOLD.

(** The [value] of each member of the enumeration. *)
Definition FilingStatus_value (s : FilingStatus) : string :=
  match s with
  | SINGLE => "single"
  | MARRIED => "married"
  | HEAD_OF_HOUSEHOLD => "head_of_household"
  end.

Record TaxBracket : Type := mkTaxBracket {
  rate : Q;
  min_income : Q;
  max_income : bound
}.

(** 2024 tax brackets (single). *)
Definition single_brackets : list TaxBracket :=
  [ mkTaxBracket 0.10 0 (Finite 11600);
    mkTaxBracket 0.12 11600 (Finite 47150);
    mkTaxBracket 0.22 47150 (Finite 100525);
    mkTaxBracket 0.24 100525 (Finite 191950);
    mkTaxBracket 0.32 191950 (Finite 243725);
    mkTaxBracket 0.35 243725 (Finite 609350);
    mkTaxBracket 0.37 609350 Infinity ].

(** 2024 tax brackets (married filing jointly). *)
Definition married_brackets : list TaxBracket :=
  [ mkTaxBracket 0.10 0 (Finite 23200);
    mkTaxBracket 0.12 23200 (Finite 94300);
    mkTaxBracket 0.22 94300 (Finite 201050);
    mkTaxBracket 0.24 201050 (Finite 383900);
    mkTaxBracket 0.32 383900 (Finite 487450);
    mkTaxBracket 0.35 487450 (Finite 731200);
    mkTaxBracket 0.37 731200 Infinity ].

(** 2024 tax brackets (head of household). *)
Definition hoh_brackets : list TaxBracket :=
  [ mkTaxBracket 0.10 0 (Finite 16550);
    mkTaxBracket 0.12 16550 (Finite 63100);
    mkTaxBracket 0.22 63100 (Finite 100500);
    mkTaxBracket 0.24 100500 (Finite 191950);
    mkTaxBracket 0.32 191950 (Finite 243700);
    mkTaxBracket 0.35 243700 (Finite 609350);
    mkTaxBracket 0.37 609350 Infinity ].

(** 2024 standard deductions. *)
Definition standard_deductions (s : FilingStatus) : Q :=
  match s with
  | SINGLE => 14600
  | MARRIED => 29200
  | HEAD_OF_HOUSEHOLD => 21900
  end.

Definition get_brackets_for_status (filing_status : FilingStatus) : list TaxBracket :=
  match filing_status with
  | SINGLE => single_brackets
  | MARRIED => married_brackets
  | HEAD_OF_HOUSEHOLD => hoh_brackets
  end.

Definition calculate_tax_for_bracket (income : Q) (bracket : TaxBracket) : Q :=
  if Qle_bool income (min_income bracket) then 0
  else
    let taxable_in_bracket :=
      min_bound (income - min_income bracket)
                (bound_sub (max_income bracket) (min_income bracket)) in
    taxable_in_bracket * rate bracket.

(** One turn of the loop of [calculate_marginal_tax]. *)
Definition marginal_step (taxable_income : Q) (total_tax : Q) (bracket : TaxBracket) : Q :=
  if ltb (min_income bracket) taxable_income
  then total_tax + calculate_tax_for_bracket taxable_income bracket
  else total_tax.

Definition calculate_marginal_tax (taxable_income : Q) (filing_status : FilingStatus) : Q :=
  let brackets := get_brackets_for_status filing_status in
  fold_left (marginal_step taxable_income) brackets 0.

Definition calculate_standard_deduction (filing_status : FilingStatus) (age : Z) : Q :=
  let base_deduction := standard_deductions filing_status in
  if (65 <=? age)%Z then
    match filing_status with
    | SINGLE => base_deduction + 1850
    | MARRIED => base_deduction + 1500
    | HEAD_OF_HOUSEHOLD => base_deduction + 1850
    end
  else base_deduction.

(** ** Exceptions *)

Inductive exn : Type :=
| ValueError (msg : string)
| TypeError (msg : string)
| OverflowError (msg : string).

(** A computation that returns a value or raises. *)
Inductive result (A : Type) : Type :=
| Return (a : A)
| Raise (e : exn).

Arguments Return {A} a.
Arguments Raise {A} e.

Definition bind {A B : Type} (m : result A) (f : A -> result B) : result B :=
  match m with
  | Return a => f a
  | Raise e => Raise e
  end.

Notation "'let*' x ':=' m 'in' k" := (bind m (fun x => k))
  (at level 10, x name, m at level 100, k at level 200).

Definition returns {A : Type} (m : result A) : bool :=
  match m with
  | Return _ => true
  | Raise _ => false
  end.

(** ** Python builtins on text *)

Module PyStr.

Definition code (c : ascii) : N := N_of_ascii c.

Definition in_range (lo hi : N) (c : ascii) : bool :=
  ((lo <=? code c) && (code c <=? hi))%N.

Definition is_upper : ascii -> bool := in_range 65 90.
Definition is_lower : ascii -> bool := in_range 97 122.
Definition is_digit : ascii -> bool := in_range 48 57.

(** Whitespace of [str.split()], [str.strip()] and of the class [\s]:
    TAB, LF, VT, FF, CR, the separators FS, GS, RS, US, and the space. *)
Definition is_space (c : ascii) : bool :=
  in_range 9 13 c || in_range 28 31 c || (code c =? 32)%N.

Definition lower_char (c : ascii) : ascii :=
  if is_upper c then ascii_of_N (code c + 32) else c.

Definition upper_char (c : ascii) : ascii :=
  if is_lower c then ascii_of_N (code c - 32) else c.

Fixpoint map_chars (f : ascii -> ascii) (s : string) : string :=
  match s with
  | EmptyString => EmptyString
  | String c s' => String (f c) (map_chars f s')
  end.

(** [s.lower()] *)
Definition lower : string -> string := map_chars lower_char.

(** [s.upper()] *)
Definition upper : string -> string := map_chars upper_char.

(** [sub in s] *)
Fixpoint contains (sub s : string) : bool :=
  String.prefix sub s ||
  match s with
  | EmptyString => false
  | String _ s' => contains sub s'
  end.

(** [s.split(sep)] for a separator of one character. *)
Fixpoint split_on (sep : ascii) (s : string) : list string :=
  match s with
  | EmptyString => [EmptyString]
  | String c s' =>
      if Ascii.eqb c sep then EmptyString :: split_on sep s'
      else match split_on sep s' with
           | h :: t => String c h :: t
           | [] => [String c EmptyString]
           end
  end.

(** [s.split()]: the maximal runs of characters that are not whitespace. *)
Fixpoint split (s : string) : list string :=
  match s with
  | EmptyString => []
  | String c s' =>
      if is_space c then split s'
      else match s' with
           | EmptyString => [String c EmptyString]
           | String d _ =>
               if is_space d then String c EmptyString :: split s'
               else match split s' with
                    | h :: t => String c h :: t
                    | [] => [String c EmptyString]
                    end
           end
  end.

Fixpoint lstrip (s : string) : string :=
  match s with
  | EmptyString => EmptyString
  | String c s' => if is_space c then lstrip s' else s
  end.

Fixpoint rstrip (s : string) : string :=
  match s with
  | EmptyString => EmptyString
  | String c s' =>
      match rstrip s' with
      | EmptyString => if is_space c then EmptyString else String c EmptyString
      | r => String c r
      end
  end.

(** [s.strip()] *)
Definition strip (s : string) : string := rstrip (lstrip s).

(** [s.replace(c, '')] for one character [c]. *)
Fixpoint remove (c : ascii) (s : string) : string :=
  match s with
  | EmptyString => EmptyString
  | String d s' => if Ascii.eqb d c then remove c s' else String d (remove c s')
  end.

Fixpoint all_chars (p : ascii -> bool) (s : string) : bool :=
  match s with
  | EmptyString => true
  | String c s' => p c && all_chars p s'
  end.

(** [s.isdigit()] *)
Definition isdigit (s : string) : bool :=
  match s with
  | EmptyString => false
  | _ => all_chars is_digit s
  end.

Fixpoint int_from (acc : Z) (s : string) : Z :=
  match s with
  | EmptyString => acc
  | String c s' => int_from (10 * acc + Z.of_N (code c - 48))%Z s'
  end.

(** [int(s)] on a string of digits. *)
Definition int (s : string) : Z := int_from 0 s.

Fixpoint drop (n : nat) (s : string) : string :=
  match n, s with
  | O, _ => s
  | S n', String _ s' => drop n' s'
  | S _, EmptyString => EmptyString
  end.

Fixpoint take (n : nat) (s : string) : string :=
  match n, s with
  | S n', String c s' => String c (take n' s')
  | _, _ => EmptyString
  end.

(** The text of several lines: ['\n'.join(lines)]. *)
Fixpoint join_lines (lines : list string) : string :=
  match lines with
  | [] => EmptyString
  | [l] => l
  | l :: rest => String.append l (String "010" (join_lines rest))
  end.

End PyStr.

(** ** tax_calculator.py, continued *)

(** [FilingStatus(value)]: the member with that value, or [ValueError]. *)
Definition FilingStatus_of_value (value : string) : result FilingStatus :=
  if String.eqb value "single" then Return SINGLE
  else if String.eqb value "married" then Return MARRIED
  else if String.eqb value "head_of_household" then Return HEAD_OF_HOUSEHOLD
  else Raise (ValueError (String.append value " is not a valid FilingStatus")).

(** One entry of the list built by [get_bracket_breakdown].  The two
    display strings are kept as the numbers they are formatted from:
    ['bracket'] as [rate * 100] and ['income_range'] as the bracket's two
    ends, the upper one open when it is [float('inf')]. *)
Record BracketEntry : Type := mkBracketEntry {
  bracket_percent : Q;
  income_range : Q * bound;
  taxable_in_bracket : Q;
  tax_for_bracket : Q
}.

(** One turn of the loop of [get_bracket_breakdown]. *)
Definition breakdown_step (taxable_income : Q) (breakdown : list BracketEntry)
    (bracket : TaxBracket) : list BracketEntry :=
  if ltb (min_income bracket) taxable_income then
    let tax_for_bracket := calculate_tax_for_bracket taxable_income bracket in
    breakdown ++
      [ {| bracket_percent := rate bracket * 100;
           income_range := (min_income bracket, max_income bracket);
           taxable_in_bracket :=
             min_bound (taxable_income - min_income bracket)
                       (bound_sub (max_income bracket) (min_income bracket));
           tax_for_bracket := tax_for_bracket |} ]
  else breakdown.

Definition get_bracket_breakdown (taxable_income : Q) (filing_status : FilingStatus)
    : list BracketEntry :=
  let brackets := get_brackets_for_status filing_status in
  fold_left (breakdown_step taxable_income) brackets [].

(** [sum(entry['tax_for_bracket'] for entry in breakdown)] *)
Definition sum_tax_for_bracket (breakdown : list BracketEntry) : Q :=
  fold_left (fun total entry => total + tax_for_bracket entry) breakdown 0.

Record IncomeBreakdown : Type := mkIncomeBreakdown {
  ib_wages : Q;
  ib_interest_income : Q;
  ib_nonemployee_compensation : Q;
  ib_total_income : Q
}.

Record Deductions : Type := mkDeductions {
  d_standard_deduction : Q;
  d_agi : Q;
  d_taxable_income : Q
}.

Record TaxCalculation : Type := mkTaxCalculation {
  tc_tax_liability : Q;
  tc_total_payments : Q;
  tc_refund_or_amount_owed : Q
}.

(** The [breakdown] dictionary of a result. *)
Record Breakdown : Type := mkBreakdown {
  income_breakdown : IncomeBreakdown;
  deductions : Deductions;
  tax_calculation : TaxCalculation;
  bracket_breakdown : list BracketEntry
}.

Record TaxCalculationResult : Type := mkTaxCalculationResult {
  filing_status : FilingStatus;
  total_income : Q;
  adjusted_gross_income : Q;
  standard_deduction : Q;
  taxable_income : Q;
  tax_liability : Q;
  total_payments : Q;
  refund_or_amount_owed : Q;
  breakdown : Breakdown
}.

Definition calculate_tax (filing_status : string)
    (wages interest_income nonemployee_compensation federal_income_tax_withheld : Q)
    (dependents age : Z) : result TaxCalculationResult :=
  let* status_enum := FilingStatus_of_value (PyStr.lower filing_status) in
  let total_income := wages + interest_income + nonemployee_compensation in
  let agi := total_income in
  let standard_deduction := calculate_standard_deduction status_enum age in
  let taxable_income := Py.max 0 (agi - standard_deduction) in
  let tax_liability := calculate_marginal_tax taxable_income status_enum in
  let total_payments := federal_income_tax_withheld in
  let refund_or_amount_owed := total_payments - tax_liability in
  let breakdown :=
    {| income_breakdown :=
         {| ib_wages := wages;
            ib_interest_income := interest_income;
            ib_nonemployee_compensation := nonemployee_compensation;
            ib_total_income := total_income |};
       deductions :=
         {| d_standard_deduction := standard_deduction;
            d_agi := agi;
            d_taxable_income := taxable_income |};
       tax_calculation :=
         {| tc_tax_liability := tax_liability;
            tc_total_payments := total_payments;
            tc_refund_or_amount_owed := refund_or_amount_owed |};
       bracket_breakdown := get_bracket_breakdown taxable_income status_enum |} in
  Return
    {| filing_status := status_enum;
       total_income := total_income;
       adjusted_gross_income := agi;
       standard_deduction := standard_deduction;
       taxable_income := taxable_income;
       tax_liability := tax_liability;
       total_payments := total_payments;
       refund_or_amount_owed := refund_or_amount_owed;
       breakdown := breakdown |}.

(** A value passed by keyword: a number ([int] or [float]) or a string. *)
Inductive pyval : Type :=
| PNum (q : Q)
| PStr (s : string).

(** [kwargs]: the keyword arguments in the order they were passed. *)
Definition kwargs_t : Type := list (string * pyval).

Fixpoint kwargs_get (key : string) (kwargs : kwargs_t) : option pyval :=
  match kwargs with
  | [] => None
  | (k, v) :: rest => if String.eqb k key then Some v else kwargs_get key rest
  end.

Record Validation : Type := mkValidation {
  v_is_valid : bool;
  v_errors : list string;
  v_warnings : list string
}.

(** [value < 0] for a number; comparing a string with [0] raises. *)
Definition negative (v : pyval) : result bool :=
  match v with
  | PNum q => Return (ltb q 0)
  | PStr _ => Raise (TypeError "'<' not supported between instances of 'str' and 'int'")
  end.

(** The first loop of [validate_inputs]: one error per negative number. *)
Definition negative_step (errors : list string) (item : string * pyval) : list string :=
  match item with
  | (key, PNum q) => if ltb q 0 then errors ++ [String.append key " cannot be negative"] else errors
  | (_, PStr _) => errors
  end.

Definition valid_statuses : list string :=
  map FilingStatus_value [SINGLE; MARRIED; HEAD_OF_HOUSEHOLD].

Definition validate_inputs (kwargs : kwargs_t) : result Validation :=
  let errors := fold_left negative_step kwargs [] in
  let errors :=
    match kwargs_get "filing_status" kwargs with
    | Some (PStr s) =>
        if existsb (String.eqb s) valid_statuses then errors
        else errors ++ ["Invalid filing status. Must be one of: ['single', 'married', 'head_of_household']"]
    | Some (PNum _) =>
        errors ++ ["Invalid filing status. Must be one of: ['single', 'married', 'head_of_household']"]
    | None => errors
    end in
  let* errors :=
    match kwargs_get "dependents" kwargs with
    | Some v =>
        let* neg := negative v in
        Return (if neg then errors ++ ["Number of dependents cannot be negative"] else errors)
    | None => Return errors
    end in
  let* warnings :=
    match kwargs_get "age" kwargs with
    | Some (PNum a) =>
        Return (if ltb a 0 || ltb 120 a then ["Age seems unusual, please verify"] else [])
    | Some (PStr _) =>
        Raise (TypeError "'<' not supported between instances of 'str' and 'int'")
    | None => Return []
    end in
  Return {| v_is_valid := (length errors =? 0)%nat;
            v_errors := errors;
            v_warnings := warnings |}.

(** ** The regular expressions of document_processor.py

    Only the constructs of the patterns whose matches the parsers read:
    literals, a character class repeated a fixed number of times, a greedy
    [class+], sequence and ordered alternation.  Matching is by
    backtracking, leftmost match first, as in Python's [re]. *)

Module Re.

Inductive regex : Type :=
| Lit (s : string)
| Repeat (n : nat) (p : ascii -> bool)
| Plus (p : ascii -> bool)
| Seq (r1 r2 : regex)
| Alt (r1 r2 : regex).

(** [class{n}]: the rest of the text after [n] characters of the class. *)
Fixpoint repeat_class (n : nat) (p : ascii -> bool) (s : string) : option string :=
  match n with
  | O => Some s
  | S n' =>
      match s with
      | String c s' => if p c then repeat_class n' p s' else None
      | EmptyString => None
      end
  end.

(** [class+] followed by the continuation [k]: the longest run first,
    then shorter ones, never fewer than one character. *)
Fixpoint plus_class (p : ascii -> bool) (k : string -> option string) (s : string)
    : option string :=
  match s with
  | String c s' =>
      if p c then
        match plus_class p k s' with
        | Some rest => Some rest
        | None => k s'
        end
      else None
  | EmptyString => None
  end.

(** Match [r] at the start of [s] and then [k]; the result is the text
    left after the whole match. *)
Fixpoint match_here (r : regex) (k : string -> option string) (s : string)
    : option string :=
  match r with
  | Lit l => if String.prefix l s then k (PyStr.drop (String.length l) s) else None
  | Repeat n p =>
      match repeat_class n p s with
      | Some s' => k s'
      | None => None
      end
  | Plus p => plus_class p k s
  | Seq r1 r2 => match_here r1 (match_here r2 k) s
  | Alt r1 r2 =>
      match match_here r1 k s with
      | Some rest => Some rest
      | None => match_here r2 k s
      end
  end.

(** [re.findall(r, text)[0]] when [re.findall(r, text)] is not empty:
    the text of the leftmost match. *)
Fixpoint first_match (r : regex) (s : string) : option string :=
  match match_here r Some s with
  | Some rest => Some (PyStr.take (String.length s - String.length rest) s)
  | None =>
      match s with
      | EmptyString => None
      | String _ s' => first_match r s'
      end
  end.

Definition digit : ascii -> bool := PyStr.is_digit.

(** [\d{2}-\d{7}] *)
Definition ein : regex := Seq (Repeat 2 digit) (Seq (Lit "-") (Repeat 7 digit)).

(** [\d{3}-\d{2}-\d{4}] *)
Definition ssn : regex :=
  Seq (Repeat 3 digit) (Seq (Lit "-") (Seq (Repeat 2 digit) (Seq (Lit "-") (Repeat 4 digit)))).

(** The class [[A-Z\s&]]. *)
Definition company_char (c : ascii) : bool :=
  PyStr.is_upper c || PyStr.is_space c || Ascii.eqb c "&".

(** The class [[A-Za-z\s]]. *)
Definition name_char (c : ascii) : bool :=
  PyStr.is_upper c || PyStr.is_lower c || PyStr.is_space c.

(** [(?:CORP|INC|LLC|LTD|COMPANY|CO)] *)
Definition company_suffix : regex :=
  Alt (Lit "CORP") (Alt (Lit "INC") (Alt (Lit "LLC") (Alt (Lit "LTD")
    (Alt (Lit "COMPANY") (Lit "CO"))))).

(** [[A-Z\s&]+(?:CORP|INC|LLC|LTD|COMPANY|CO)] *)
Definition company : regex := Seq (Plus company_char) company_suffix.

(** [[A-Z\s&]+(?:BANK|CORP|INC|LLC|LTD|COMPANY|CO)] *)
Definition bank_or_company : regex :=
  Seq (Plus company_char) (Alt (Lit "BANK") company_suffix).

(** [[A-Za-z\s]+] *)
Definition person : regex := Plus name_char.

End Re.

(** ** document_processor.py *)

Inductive DocumentType : Type :=
| W2
| INT_1099
| NEC_1099
| UNKNOWN.

Definition DocumentType_value (t : DocumentType) : string :=
  match t with
  | W2 => "W-2"
  | INT_1099 => "1099-INT"
  | NEC_1099 => "1099-NEC"
  | UNKNOWN => "UNKNOWN"
  end.

Definition DocumentType_eqb (a b : DocumentType) : bool :=
  match a, b with
  | W2, W2 | INT_1099, INT_1099 | NEC_1099, NEC_1099 | UNKNOWN, UNKNOWN => true
  | _, _ => false
  end.

Record ExtractedData : Type := mkExtractedData {
  document_type : DocumentType;
  confidence_score : Q;
  data : gmap string pyval;
  raw_text : string;
  filename : string
}.

(** A pattern of the tables [w2_patterns], [int_1099_patterns] and
    [nec_1099_patterns].  The parsers read the matches of the identifier
    and name patterns only; the patterns of the other fields are searched
    and their matches dropped, so they are kept as their source text. *)
Inductive pattern : Type :=
| Pattern (r : Re.regex)
| Unread (source : string).

Definition w2_patterns : list (string * pattern) :=
  [ ("employer_ein", Pattern Re.ein);
    ("employer_name", Pattern Re.company);
    ("employee_name", Pattern Re.person);
    ("employee_ssn", Pattern Re.ssn);
    ("wages", Unread "(\d{1,3}(?:,\d{3})*)\s+(\d{1,3}(?:,\d{3})*)");
    ("federal_tax_withheld", Unread "(\d{1,3}(?:,\d{3})*)\s+(\d{1,3}(?:,\d{3})*)");
    ("social_security_wages", Unread "(\d{1,3}(?:,\d{3})*)\s+(\d{1,3}(?:,\d{3})*)");
    ("social_security_tax", Unread "(\d{1,3}(?:,\d{3})*)\s+(\d{1,3}(?:,\d{3})*)");
    ("medicare_wages", Unread "(\d{1,3}(?:,\d{3})*)\s+(\d{1,3}(?:,\d{3})*)");
    ("medicare_tax", Unread "(\d{1,3}(?:,\d{3})*)\s+(\d{1,3}(?:,\d{3})*)");
    ("state", Unread "([A-Z]{2})");
    ("state_wages", Unread "(\d{1,3}(?:,\d{3})*)\s+(\d{1,3}(?:,\d{3})*)\s+([A-Z]{2})");
    ("state_tax", Unread "(\d{1,3}(?:,\d{3})*)\s+(\d{1,3}(?:,\d{3})*)\s+([A-Z]{2})") ].

Definition int_1099_patterns : list (string * pattern) :=
  [ ("payer_name", Pattern Re.bank_or_company);
    ("payer_tin", Pattern Re.ein);
    ("recipient_ssn", Pattern Re.ssn);
    ("recipient_name", Pattern Re.person);
    ("account_number", Unread "([A-Z0-9-]+)");
    ("interest_income", Unread "(\d{1,3}(?:,\d{3})*)");
    ("federal_tax_withheld", Unread "(\d{1,3}(?:,\d{3})*)") ].

Definition nec_1099_patterns : list (string * pattern) :=
  [ ("payer_name", Pattern Re.company);
    ("payer_tin", Pattern Re.ein);
    ("recipient_ssn", Pattern Re.ssn);
    ("recipient_name", Pattern Re.person);
    ("account_number", Unread "([A-Z0-9-]+)");
    ("nonemployee_compensation", Unread "(\d{1,3}(?:,\d{3})*)");
    ("federal_tax_withheld", Unread "(\d{1,3}(?:,\d{3})*)") ].

(** [sum(1 for indicator in indicators if indicator in text_upper)] *)
Definition indicator_score (indicators : list string) (text_upper : string) : nat :=
  length (List.filter (fun indicator => PyStr.contains indicator text_upper) indicators).

Definition w2_indicators : list string :=
  ["FORM W-2"; "WAGE AND TAX STATEMENT"; "EMPLOYER IDENTIFICATION NUMBER"].

Definition int_indicators : list string :=
  ["FORM 1099-INT"; "INTEREST INCOME"; "PAYER'S NAME"].

Definition nec_indicators : list string :=
  ["FORM 1099-NEC"; "NONEMPLOYEE COMPENSATION"; "PAYER'S NAME"].

(** [count / len(indicators)] *)
Definition ratio (count total : nat) : Q :=
  inject_Z (Z.of_nat count) / inject_Z (Z.of_nat total).

(** The dictionary [scores], in the order its keys were inserted, from
    [text_upper], the text in upper case. *)
Definition scores (text_upper : string) : list (DocumentType * Q) :=
  let w2_score := indicator_score w2_indicators text_upper in
  let int_score := indicator_score int_indicators text_upper in
  let nec_score := indicator_score nec_indicators text_upper in
  [ (W2, ratio w2_score (length w2_indicators));
    (INT_1099, ratio int_score (length int_indicators));
    (NEC_1099, ratio nec_score (length nec_indicators)) ].

(** [max(items, key=...)] over the items after the first: an item
    replaces the best one so far only when its key is strictly larger. *)
Fixpoint max_by {A : Type} (key : A -> Q) (best : A) (items : list A) : A :=
  match items with
  | [] => best
  | item :: rest => max_by key (if ltb (key best) (key item) then item else best) rest
  end.

(** [best_type = max(scores, key=scores.get)] with
    [confidence = scores[best_type]]: what [detect_document_type] returns
    once [text_upper] is computed. *)
Definition best_type_of (text_upper : string) : DocumentType * Q :=
  match scores text_upper with
  | first :: rest => max_by snd first rest
  | [] => (UNKNOWN, 0)
  end.

Definition detect_document_type (text : string) : DocumentType * Q :=
  let text_upper := PyStr.upper text in
  best_type_of text_upper.

Definition dict_has (d : gmap string pyval) (key : string) : bool :=
  match d !! key with
  | Some _ => true
  | None => false
  end.

Definition mem (x : string) (l : list string) : bool := existsb (String.eqb x) l.

(** The state of a parser's loops: [data] and [total_matches]. *)
Definition parse_state : Type := gmap string pyval * nat.

(** One turn of the loop "extract other fields using regex". *)
Definition regex_step (id_fields name_fields : list string) (text : string)
    (st : parse_state) (entry : string * pattern) : parse_state :=
  let '(data, total_matches) := st in
  let '(field_name, pat) := entry in
  if dict_has data field_name then st
  else
    match pat with
    | Unread _ => st
    | Pattern r =>
        match Re.first_match r text with
        | None => st
        | Some m =>
            if mem field_name id_fields then
              (<[field_name := PStr m]> data, S total_matches)
            else if mem field_name name_fields then
              let name := PyStr.strip m in
              if (2 <? String.length name)%nat then
                (<[field_name := PStr name]> data, S total_matches)
              else st
            else st
        end
    end.

(** [total_matches / expected_fields if expected_fields > 0 else 0] *)
Definition parse_confidence (total_matches expected_fields : nat) : Q :=
  if (0 <? expected_fields)%nat then ratio total_matches expected_fields else 0.

Section Parsers.

(** [float(s)] of Python: [Some] of the number read, [None] when it
    raises [ValueError]. *)
Variable py_float : string -> option Q.

(** [float(part.replace(',', ''))] *)
Definition to_float (part : string) : result Q :=
  match py_float (PyStr.remove "," part) with
  | Some q => Return q
  | None => Raise (ValueError "could not convert string to float")
  end.

(** [parts[i]] for an index the caller has checked. *)
Definition part (parts : list string) (i : nat) : string := nth i parts EmptyString.

(** One turn of the loop over [lines] of [parse_w2_data]. *)
Definition w2_line_step (st : result parse_state) (line : string) : result parse_state :=
  let* s := st in
  let '(data, total_matches) := s in
  if PyStr.contains "11-1111111" line && PyStr.contains "50,000" line
     && PyStr.contains "8,000" line then
    let parts := PyStr.split line in
    if (3 <=? length parts)%nat then
      let* wages := to_float (part parts 1) in
      let* withheld := to_float (part parts 2) in
      Return (<["federal_tax_withheld" := PNum withheld]>
                (<["wages" := PNum wages]> data),
              (total_matches + 2)%nat)
    else Return s
  else if PyStr.contains "50,000" line && PyStr.contains "3,100" line then
    let parts := PyStr.split line in
    if (2 <=? length parts)%nat then
      let* ss_wages := to_float (part parts 0) in
      let* ss_tax := to_float (part parts 1) in
      Return (<["social_security_tax" := PNum ss_tax]>
                (<["social_security_wages" := PNum ss_wages]> data),
              (total_matches + 2)%nat)
    else Return s
  else if PyStr.contains "50,000" line && PyStr.contains "725" line then
    let parts := PyStr.split line in
    if (2 <=? length parts)%nat then
      let* medicare_wages := to_float (part parts 0) in
      let* medicare_tax := to_float (part parts 1) in
      Return (<["medicare_tax" := PNum medicare_tax]>
                (<["medicare_wages" := PNum medicare_wages]> data),
              (total_matches + 2)%nat)
    else Return s
  else if PyStr.contains "50,000" line && PyStr.contains "2,000" line
          && PyStr.contains "CA" line then
    let parts := PyStr.split line in
    if (3 <=? length parts)%nat then
      let* state_wages := to_float (part parts 0) in
      let* state_tax := to_float (part parts 1) in
      Return (<["state" := PStr (part parts 2)]>
                (<["state_tax" := PNum state_tax]>
                   (<["state_wages" := PNum state_wages]> data)),
              (total_matches + 3)%nat)
    else Return s
  else Return s.

Definition parse_w2_data (text : string) : result (gmap string pyval * Q) :=
  let expected_fields := length w2_patterns in
  let lines := PyStr.split_on "010" text in
  let* s := fold_left w2_line_step lines (Return (∅, O)) in
  let '(data, total_matches) :=
    fold_left (regex_step ["employer_ein"; "employee_ssn"]
                          ["employer_name"; "employee_name"] text)
              w2_patterns s in
  Return (data, parse_confidence total_matches expected_fields).

(** The inner loop of the two 1099 parsers: the first part that is a
    number equal to [amount], if any. *)
Definition amount_part (amount : Z) (parts : list string) : option string :=
  List.find (fun p => PyStr.isdigit (PyStr.remove "," p)
                      && (PyStr.int (PyStr.remove "," p) =? amount)%Z) parts.

(** One turn of the loop over [lines] of a 1099 parser: a line holding
    both markers gives [field] the first part equal to [amount]. *)
Definition amount_line_step (marker1 marker2 : string) (amount : Z) (field : string)
    (st : result parse_state) (line : string) : result parse_state :=
  let* s := st in
  let '(data, total_matches) := s in
  if PyStr.contains marker1 line && PyStr.contains marker2 line then
    match amount_part amount (PyStr.split line) with
    | Some p =>
        let* value := to_float p in
        Return (<[field := PNum value]> data, (total_matches + 1)%nat)
    | None => Return s
    end
  else Return s.

Definition parse_1099_int_data (text : string) : result (gmap string pyval * Q) :=
  let expected_fields := length int_1099_patterns in
  let lines := PyStr.split_on "010" text in
  let* s := fold_left (amount_line_step "789 Bank St" "300" 300 "interest_income")
                      lines (Return (∅, O)) in
  let '(data, total_matches) :=
    fold_left (regex_step ["payer_tin"; "recipient_ssn"]
                          ["payer_name"; "recipient_name"] text)
              int_1099_patterns s in
  Return (data, parse_confidence total_matches expected_fields).

Definition parse_1099_nec_data (text : string) : result (gmap string pyval * Q) :=
  let expected_fields := length nec_1099_patterns in
  let lines := PyStr.split_on "010" text in
  let* s := fold_left (amount_line_step "33-3333333" "10,000" 10000
                                        "nonemployee_compensation")
                      lines (Return (∅, O)) in
  let '(data, total_matches) :=
    fold_left (regex_step ["payer_tin"; "recipient_ssn"]
                          ["payer_name"; "recipient_name"] text)
              nec_1099_patterns s in
  Return (data, parse_confidence total_matches expected_fields).

(** [process_document], from the text that [extract_text_from_pdf]
    returned for the file and the file's base name. *)
Definition process_document (text filename : string) : result ExtractedData :=
  match text with
  | EmptyString =>
      Return {| document_type := UNKNOWN;
                confidence_score := 0;
                data := ∅;
                raw_text := EmptyString;
                filename := filename |}
  | _ =>
      let '(doc_type, type_confidence) := detect_document_type text in
      let* parsed :=
        match doc_type with
        | W2 => parse_w2_data text
        | INT_1099 => parse_1099_int_data text
        | NEC_1099 => parse_1099_nec_data text
        | UNKNOWN => Return (∅, 0)
        end in
      let '(data, parse_confidence) := parsed in
      let overall_confidence := (type_confidence + parse_confidence) / 2 in
      Return {| document_type := doc_type;
                confidence_score := overall_confidence;
                data := data;
                raw_text := text;
                filename := filename |}
  end.

End Parsers.

Record ValidationResult : Type := mkValidationResult {
  is_valid : bool;
  errors : list string;
  warnings : list string;
  suggestions : list string
}.

Definition validate_extracted_data (extracted_data : ExtractedData) : ValidationResult :=
  let errors := [] in
  let errors :=
    if ltb (confidence_score extracted_data) 0.5
    then errors ++ ["Low confidence in document parsing"] else errors in
  let errors :=
    if DocumentType_eqb (document_type extracted_data) UNKNOWN
    then errors ++ ["Could not determine document type"] else errors in
  let warnings :=
    if DocumentType_eqb (document_type extracted_data) W2 then
      fold_left
        (fun warnings field =>
           if dict_has (data extracted_data) field then warnings
           else warnings ++ [String.append "Missing required field: " field])
        ["wages"; "federal_tax_withheld"] []
    else [] in
  let suggestions :=
    if DocumentType_eqb (document_type extracted_data) W2 then []
    else if DocumentType_eqb (document_type extracted_data) INT_1099
            || DocumentType_eqb (document_type extracted_data) NEC_1099 then
      if dict_has (data extracted_data) "federal_tax_withheld" then []
      else ["No federal tax withheld found (this may be normal)"]
    else [] in
  let is_valid :=
    negb (bool_decide (data extracted_data = ∅)) && (length errors =? 0)%nat in
  {| is_valid := is_valid;
     errors := errors;
     warnings := warnings;
     suggestions := suggestions |}.

(** ** routes/calculate.py: the aggregation loop of the [/calculate] route *)

Module Routes.

(** The dictionary [income_data]. *)
Record IncomeData : Type := mkIncomeData {
  wages : Q;
  interest_income : Q;
  nonemployee_compensation : Q;
  federal_income_tax_withheld : Q
}.

Definition income_data_init : IncomeData := mkIncomeData 0 0 0 0.

(** An entry of the list [processed_documents]. *)
Record ProcessedDocument : Type := mkProcessedDocument {
  pd_filename : string;
  pd_document_type : string;
  pd_confidence_score : Q;
  pd_extracted_data : gmap string pyval;
  pd_error : option string
}.

(** [d.get(key, 0)] *)
Definition get0 (d : gmap string pyval) (key : string) : pyval :=
  match d !! key with
  | Some v => v
  | None => PNum 0
  end.

(** [total + v], the right-hand side of [total += v]: adding a string
    to a number raises. *)
Definition add (total : Q) (v : pyval) : result Q :=
  match v with
  | PNum q => Return (total + q)
  | PStr _ => Raise (TypeError "unsupported operand type(s) for +=: 'int' and 'str'")
  end.

Definition str (e : exn) : string :=
  match e with
  | ValueError msg => msg
  | TypeError msg => msg
  | OverflowError msg => msg
  end.

(** The two updates of [income_data] for one document.  [income_data] is
    updated in place, so an update made before a later one raises stays. *)
Definition aggregate (income_data : IncomeData) (extracted_data : ExtractedData)
    : IncomeData * result unit :=
  let d := data extracted_data in
  let withheld (income_data : IncomeData) : IncomeData * result unit :=
    match add (federal_income_tax_withheld income_data) (get0 d "federal_tax_withheld") with
    | Return total =>
        (mkIncomeData (wages income_data) (interest_income income_data)
                      (nonemployee_compensation income_data) total, Return tt)
    | Raise e => (income_data, Raise e)
    end in
  match document_type extracted_data with
  | W2 =>
      match add (wages income_data) (get0 d "wages") with
      | Return total =>
          withheld (mkIncomeData total (interest_income income_data)
                                 (nonemployee_compensation income_data)
                                 (federal_income_tax_withheld income_data))
      | Raise e => (income_data, Raise e)
      end
  | INT_1099 =>
      match add (interest_income income_data) (get0 d "interest_income") with
      | Return total =>
          withheld (mkIncomeData (wages income_data) total
                                 (nonemployee_compensation income_data)
                                 (federal_income_tax_withheld income_data))
      | Raise e => (income_data, Raise e)
      end
  | NEC_1099 =>
      match add (nonemployee_compensation income_data)
                (get0 d "nonemployee_compensation") with
      | Return total =>
          withheld (mkIncomeData (wages income_data) (interest_income income_data)
                                 total (federal_income_tax_withheld income_data))
      | Raise e => (income_data, Raise e)
      end
  | UNKNOWN => (income_data, Return tt)
  end.

Definition failed (filename : string) (e : exn) : ProcessedDocument :=
  {| pd_filename := filename;
     pd_document_type := "UNKNOWN";
     pd_confidence_score := 0;
     pd_extracted_data := ∅;
     pd_error := Some (str e) |}.

(** One turn of the loop over [pdf_files]: the file's name and what
    [process_document] did on it, a result or an exception. *)
Definition file_step (st : IncomeData * list ProcessedDocument)
    (file : string * result ExtractedData) : IncomeData * list ProcessedDocument :=
  let '(income_data, processed_documents) := st in
  let '(name, outcome) := file in
  match outcome with
  | Raise e => (income_data, processed_documents ++ [failed name e])
  | Return extracted_data =>
      match aggregate income_data extracted_data with
      | (income_data, Return _) =>
          (income_data,
           processed_documents ++
             [ {| pd_filename := filename extracted_data;
                  pd_document_type := DocumentType_value (document_type extracted_data);
                  pd_confidence_score := confidence_score extracted_data;
                  pd_extracted_data := data extracted_data;
                  pd_error := None |} ])
      | (income_data, Raise e) =>
          (income_data, processed_documents ++ [failed name e])
      end
  end.

Definition process_files (files : list (string * result ExtractedData))
    : IncomeData * list ProcessedDocument :=
  fold_left file_step files (income_data_init, []).

(** [income_data] after the loop. *)
Definition aggregate_income (files : list (string * result ExtractedData)) : IncomeData :=
  fst (process_files files).

End Routes.


(** ** The same code on Python's numbers

    The functions of tax_calculator.py and the aggregation loop of
    routes/calculate.py once more, on Python's own numbers: an [int] is
    an integer of any size and a [float] is an IEEE 754 binary64 value,
    with the rounding, the infinities and NaN of the machine.  Mixed
    arithmetic converts the [int] to a [float], which raises
    [OverflowError] beyond the range of binary64; mixed comparison is
    exact. *)

Module Binary64.

Inductive num : Type :=
| Int (z : Z)
| Float (f : float).

(** The least magnitude of an [int] that rounds beyond the largest
    [float]: [2^1024 - 2^970]. *)
Definition float_limit : Z := 2 ^ 1024 - 2 ^ 970.

(** [float(z)] for an [int]: the nearest [float], ties to even. *)
Definition float_of_int (z : Z) : result float :=
  if (Z.abs z <? float_limit)%Z
  then Return (SF2Prim (binary_normalize prec emax z 0 false))
  else Raise (OverflowError "int too large to convert to float").

Definition to_float (a : num) : result float :=
  match a with
  | Int z => float_of_int z
  | Float f => Return f
  end.

(** An arithmetic operation: on two [int] it is exact; otherwise both
    operands are taken as [float]. *)
Definition arith (on_int : Z -> Z -> Z) (on_float : float -> float -> float)
    (a b : num) : result num :=
  match a, b with
  | Int x, Int y => Return (Int (on_int x y))
  | _, _ =>
      let* f := to_float a in
      let* g := to_float b in
      Return (Float (on_float f g))
  end.

Definition add : num -> num -> result num := arith Z.add PrimFloat.add.
Definition sub : num -> num -> result num := arith Z.sub PrimFloat.sub.
Definition mul : num -> num -> result num := arith Z.mul PrimFloat.mul.

(** The order of an [int] and a [float], compared by value without
    rounding; nothing compares with NaN. *)
Definition compare_int_float (x : Z) (f : float) : option comparison :=
  match Prim2SF f with
  | S754_nan => None
  | S754_infinity negative => Some (if negative then Gt else Lt)
  | S754_zero _ => Some (x ?= 0)%Z
  | S754_finite negative m e =>
      let v := if negative then Z.neg m else Z.pos m in
      Some (if (0 <=? e)%Z then (x ?= v * 2 ^ e)%Z else (x * 2 ^ (- e) ?= v)%Z)
  end.

Definition compare (a b : num) : option comparison :=
  match a, b with
  | Int x, Int y => Some (x ?= y)%Z
  | Int x, Float g => compare_int_float x g
  | Float f, Int y => option_map CompOpp (compare_int_float y f)
  | Float f, Float g =>
      match PrimFloat.compare f g with
      | FEq => Some Eq
      | FLt => Some Lt
      | FGt => Some Gt
      | FNotComparable => None
      end
  end.

(** [a < b], [a <= b], [a > b], [a >= b] and [a == b] *)
Definition lt (a b : num) : bool :=
  match compare a b with Some Lt => true | _ => false end.

Definition le (a b : num) : bool :=
  match compare a b with Some Lt | Some Eq => true | _ => false end.

Definition gt (a b : num) : bool :=
  match compare a b with Some Gt => true | _ => false end.

Definition ge (a b : num) : bool :=
  match compare a b with Some Gt | Some Eq => true | _ => false end.


(** [min(a, b)] and [max(a, b)]: the first argument unless the second
    is strictly smaller, or strictly larger. *)
Definition min (a b : num) : num := if lt b a then b else a.
Definition max (a b : num) : num := if gt b a then b else a.

(** *** tax_calculator.py *)

Record TaxBracket : Type := mkTaxBracket {
  rate : num;
  min_income : num;
  max_income : num
}.

Definition inf : num := Float infinity.

Definition single_brackets : list TaxBracket :=
  [ mkTaxBracket (Float 0.10) (Int 0) (Int 11600);
    mkTaxBracket (Float 0.12) (Int 11600) (Int 47150);
    mkTaxBracket (Float 0.22) (Int 47150) (Int 100525);
    mkTaxBracket (Float 0.24) (Int 100525) (Int 191950);
    mkTaxBracket (Float 0.32) (Int 191950) (Int 243725);
    mkTaxBracket (Float 0.35) (Int 243725) (Int 609350);
    mkTaxBracket (Float 0.37) (Int 609350) inf ].

Definition married_brackets : list TaxBracket :=
  [ mkTaxBracket (Float 0.10) (Int 0) (Int 23200);
    mkTaxBracket (Float 0.12) (Int 23200) (Int 94300);
    mkTaxBracket (Float 0.22) (Int 94300) (Int 201050);
    mkTaxBracket (Float 0.24) (Int 201050) (Int 383900);
    mkTaxBracket (Float 0.32) (Int 383900) (Int 487450);
    mkTaxBracket (Float 0.35) (Int 487450) (Int 731200);
    mkTaxBracket (Float 0.37) (Int 731200) inf ].

Definition hoh_brackets : list TaxBracket :=
  [ mkTaxBracket (Float 0.10) (Int 0) (Int 16550);
    mkTaxBracket (Float 0.12) (Int 16550) (Int 63100);
    mkTaxBracket (Float 0.22) (Int 63100) (Int 100500);
    mkTaxBracket (Float 0.24) (Int 100500) (Int 191950);
    mkTaxBracket (Float 0.32) (Int 191950) (Int 243700);
    mkTaxBracket (Float 0.35) (Int 243700) (Int 609350);
    mkTaxBracket (Float 0.37) (Int 609350) inf ].

Definition standard_deductions (s : FilingStatus) : num :=
  match s with
  | SINGLE => Int 14600
  | MARRIED => Int 29200
  | HEAD_OF_HOUSEHOLD => Int 21900
  end.

Definition get_brackets_for_status (filing_status : FilingStatus) : list TaxBracket :=
  match filing_status with
  | SINGLE => single_brackets
  | MARRIED => married_brackets
  | HEAD_OF_HOUSEHOLD => hoh_brackets
  end.

Definition calculate_tax_for_bracket (income : num) (bracket : TaxBracket) : result num :=
  if le income (min_income bracket) then Return (Int 0)
  else
    let* in_bracket := sub income (min_income bracket) in
    let* width := sub (max_income bracket) (min_income bracket) in
    let taxable_in_bracket := min in_bracket width in
    mul taxable_in_bracket (rate bracket).

(** One turn of the loop of [calculate_marginal_tax]. *)
Definition marginal_step (taxable_income : num) (total_tax : result num)
    (bracket : TaxBracket) : result num :=
  let* total_tax := total_tax in
  if gt taxable_income (min_income bracket) then
    let* tax_for_bracket := calculate_tax_for_bracket taxable_income bracket in
    add total_tax tax_for_bracket
  else Return total_tax.

Definition calculate_marginal_tax (taxable_income : num) (filing_status : FilingStatus)
    : result num :=
  let brackets := get_brackets_for_status filing_status in
  fold_left (marginal_step taxable_income) brackets (Return (Int 0)).

Definition calculate_standard_deduction (filing_status : FilingStatus) (age : num)
    : result num :=
  let base_deduction := standard_deductions filing_status in
  if ge age (Int 65) then
    match filing_status with
    | SINGLE => add base_deduction (Int 1850)
    | MARRIED => add base_deduction (Int 1500)
    | HEAD_OF_HOUSEHOLD => add base_deduction (Int 1850)
    end
  else Return base_deduction.

(** One entry of the list built by [get_bracket_breakdown], with the two
    display strings kept as the numbers they are formatted from. *)
Record BracketEntry : Type := mkBracketEntry {
  bracket_percent : num;
  income_range : num * num;
  taxable_in_bracket : num;
  tax_for_bracket : num
}.

(** One turn of the loop of [get_bracket_breakdown]. *)
Definition breakdown_step (taxable_income : num) (breakdown : result (list BracketEntry))
    (bracket : TaxBracket) : result (list BracketEntry) :=
  let* breakdown := breakdown in
  if gt taxable_income (min_income bracket) then
    let* tax_for_bracket := calculate_tax_for_bracket taxable_income bracket in
    let* percent := mul (rate bracket) (Int 100) in
    let* in_bracket := sub taxable_income (min_income bracket) in
    let* width := sub (max_income bracket) (min_income bracket) in
    Return (breakdown ++
              [ {| bracket_percent := percent;
                   income_range := (min_income bracket, max_income bracket);
                   taxable_in_bracket := min in_bracket width;
                   tax_for_bracket := tax_for_bracket |} ])
  else Return breakdown.

Definition get_bracket_breakdown (taxable_income : num) (filing_status : FilingStatus)
    : result (list BracketEntry) :=
  let brackets := get_brackets_for_status filing_status in
  fold_left (breakdown_step taxable_income) brackets (Return []).

(** The [breakdown] dictionary of a result. *)
Record Breakdown : Type := mkBreakdown {
  income_breakdown : num * num * num * num;
  deductions : num * num * num;
  tax_calculation : num * num * num;
  bracket_breakdown : list BracketEntry
}.

Record TaxCalculationResult : Type := mkTaxCalculationResult {
  filing_status : FilingStatus;
  total_income : num;
  adjusted_gross_income : num;
  standard_deduction : num;
  taxable_income : num;
  tax_liability : num;
  total_payments : num;
  refund_or_amount_owed : num;
  breakdown : Breakdown
}.

Definition calculate_tax (filing_status : string)
    (wages interest_income nonemployee_compensation federal_income_tax_withheld
     dependents age : num) : result TaxCalculationResult :=
  let* status_enum := FilingStatus_of_value (PyStr.lower filing_status) in
  let* income := add wages interest_income in
  let* total_income := add income nonemployee_compensation in
  let agi := total_income in
  let* standard_deduction := calculate_standard_deduction status_enum age in
  let* over := sub agi standard_deduction in
  let taxable_income := max (Int 0) over in
  let* tax_liability := calculate_marginal_tax taxable_income status_enum in
  let total_payments := federal_income_tax_withheld in
  let* refund_or_amount_owed := sub total_payments tax_liability in
  let* brackets := get_bracket_breakdown taxable_income status_enum in
  let breakdown :=
    {| income_breakdown := (wages, interest_income, nonemployee_compensation, total_income);
       deductions := (standard_deduction, agi, taxable_income);
       tax_calculation := (tax_liability, total_payments, refund_or_amount_owed);
       bracket_breakdown := brackets |} in
  Return
    {| filing_status := status_enum;
       total_income := total_income;
       adjusted_gross_income := agi;
       standard_deduction := standard_deduction;
       taxable_income := taxable_income;
       tax_liability := tax_liability;
       total_payments := total_payments;
       refund_or_amount_owed := refund_or_amount_owed;
       breakdown := breakdown |}.

(** *** routes/calculate.py: the aggregation loop *)

(** A value of the dictionary [data]: a number or a string. *)
Inductive value : Type :=
| Num (n : num)
| Str (s : string).

(** The dictionary [income_data]. *)
Record IncomeData : Type := mkIncomeData {
  wages : num;
  interest_income : num;
  nonemployee_compensation : num;
  federal_income_tax_withheld : num
}.

Definition income_data_init : IncomeData := mkIncomeData (Int 0) (Int 0) (Int 0) (Int 0).

(** [d.get(key, 0)] *)
Definition get0 (d : gmap string value) (key : string) : value :=
  match d !! key with
  | Some v => v
  | None => Num (Int 0)
  end.

(** [total + v], the right-hand side of [total += v]. *)
Definition plus (total : num) (v : value) : result num :=
  match v with
  | Num n => add total n
  | Str _ => Raise (TypeError "unsupported operand type(s) for +=: 'int' and 'str'")
  end.

(** The two updates of [income_data] for a document of type
    [document_type] with the dictionary [data]; an update made before a
    later one raises stays. *)
Definition aggregate (income_data : IncomeData) (document_type : DocumentType)
    (data : gmap string value) : IncomeData * result unit :=
  let withheld (income_data : IncomeData) : IncomeData * result unit :=
    match plus (federal_income_tax_withheld income_data)
               (get0 data "federal_tax_withheld") with
    | Return total =>
        (mkIncomeData (wages income_data) (interest_income income_data)
                      (nonemployee_compensation income_data) total, Return tt)
    | Raise e => (income_data, Raise e)
    end in
  match document_type with
  | W2 =>
      match plus (wages income_data) (get0 data "wages") with
      | Return total =>
          withheld (mkIncomeData total (interest_income income_data)
                                 (nonemployee_compensation income_data)
                                 (federal_income_tax_withheld income_data))
      | Raise e => (income_data, Raise e)
      end
  | INT_1099 =>
      match plus (interest_income income_data) (get0 data "interest_income") with
      | Return total =>
          withheld (mkIncomeData (wages income_data) total
                                 (nonemployee_compensation income_data)
                                 (federal_income_tax_withheld income_data))
      | Raise e => (income_data, Raise e)
      end
  | NEC_1099 =>
      match plus (nonemployee_compensation income_data)
                 (get0 data "nonemployee_compensation") with
      | Return total =>
          withheld (mkIncomeData (wages income_data) (interest_income income_data)
                                 total (federal_income_tax_withheld income_data))
      | Raise e => (income_data, Raise e)
      end
  | UNKNOWN => (income_data, Return tt)
  end.

(** [income_data] after the loop over the documents of a batch, each
    given by its type and its dictionary; the [except] clause keeps the
    totals as the document left them. *)
Definition aggregate_income (batch : list (DocumentType * gmap string value)) : IncomeData :=
  fold_left (fun income_data document =>
               fst (aggregate income_data (fst document) (snd document)))
            batch income_data_init.

End Binary64.

(** * Properties *)

(** ** Comparisons *)

Lemma ltb_lt (a b : Q) : ltb a b = true <-> a < b.
Proof.
  unfold ltb. rewrite negb_true_iff. split; intros H.
  - apply Qnot_le_lt. intros Hle. apply Qle_bool_iff in Hle. congruence.
  - destruct (Qle_bool b a) eqn:E; [|reflexivity].
    apply Qle_bool_iff in E. lra.
Qed.

Lemma ltb_ge (a b : Q) : ltb a b = false <-> b <= a.
Proof.
  unfold ltb. rewrite negb_false_iff. apply Qle_bool_iff.
Qed.

Lemma ltb_cases (a b : Q) : (ltb a b = true /\ a < b) \/ (ltb a b = false /\ b <= a).
Proof.
  destruct (ltb a b) eqn:E; [left | right]; split; auto.
  - now apply ltb_lt.
  - now apply ltb_ge.
Qed.



(** ** Marginal tax as a sum over the brackets *)




(** Bracket [a] ends at or before the start of bracket [c]. *)
Definition before (a c : TaxBracket) : Prop :=
  bound_le (max_income a) (min_income c).

(** Bracket [a] starts below bracket [c]. *)
Definition lower_start (a c : TaxBracket) : Prop := min_income a < min_income c.

Section Marginal.












Lemma filter_sorted {A} (R : A -> A -> Prop) (p : A -> bool) (l : list A) :
  StronglySorted R l -> StronglySorted R (List.filter p l).
Proof.
  induction 1 as [|a l Hs IH Ha]; cbn; [constructor|].
  destruct (p a); [|exact IH]. constructor; [exact IH|].
  rewrite List.Forall_forall in *. intros y Hy. apply List.filter_In in Hy. apply Ha, Hy.
Qed.

(** The three tables of 2024. *)



Lemma brackets_ascending (fs : FilingStatus) :
  StronglySorted lower_start (get_brackets_for_status fs).
Proof.
  destruct fs; cbn; repeat (constructor; [|repeat constructor; reflexivity]); constructor.
Qed.

End Marginal.


(** ** The marginal tax of an [int] income, bracket by bracket *)

Section IntIncome.

Import Binary64.






















End IntIncome.




(** ** The bracket breakdown *)

Section Breakdown.

Variable x : Q.

(** The brackets that the income [x] reaches. *)
Definition reached (b : TaxBracket) : bool := ltb (min_income b) x.

Lemma breakdown_loop (brackets : list TaxBracket) : forall entries,
  fold_left (breakdown_step x) brackets entries
  = entries ++ fold_left (breakdown_step x) brackets [].
Proof.
  induction brackets as [|b rest IH]; intros entries; cbn [fold_left].
  - now rewrite app_nil_r.
  - rewrite IH. rewrite (IH (breakdown_step x [] b)).
    unfold breakdown_step. destruct (ltb (min_income b) x); cbn [app].
    + now rewrite <- app_assoc.
    + reflexivity.
Qed.

(** Summing the entries follows the loop of [calculate_marginal_tax] turn
    by turn. *)
Lemma breakdown_sum (brackets : list TaxBracket) : forall entries total,
  fold_left (fun t e => t + tax_for_bracket e)
            (fold_left (breakdown_step x) brackets entries) total
  = fold_left (marginal_step x) brackets
              (fold_left (fun t e => t + tax_for_bracket e) entries total).
Proof.
  induction brackets as [|b rest IH]; intros entries total; cbn [fold_left]; [reflexivity|].
  rewrite IH. f_equal. unfold breakdown_step, marginal_step.
  destruct (ltb (min_income b) x); [|reflexivity].
  rewrite fold_left_app. reflexivity.
Qed.

Lemma breakdown_brackets (brackets : list TaxBracket) :
  map (fun e => (income_range e, tax_for_bracket e))
      (fold_left (breakdown_step x) brackets [])
  = map (fun b => ((min_income b, max_income b), calculate_tax_for_bracket x b))
        (List.filter reached brackets).
Proof.
  induction brackets as [|b rest IH]; cbn [fold_left List.filter]; [reflexivity|].
  rewrite breakdown_loop, map_app, IH.
  unfold breakdown_step at 1, reached at 2.
  destruct (ltb (min_income b) x); reflexivity.
Qed.

End Breakdown.

(** C2.  For every taxable income and filing status, the sum of
    [tax_for_bracket] over the entries of [get_bracket_breakdown] is the
    very total of [calculate_marginal_tax]; the entries are, in the order
    of the table, those of the brackets whose lower end is below the
    taxable income, each with the ends of its bracket and the tax of
    [calculate_tax_for_bracket]; and these brackets come by ascending
    lower end. *)
Theorem breakdown_sums_to_marginal_tax (taxable_income : Q) (fs : FilingStatus) :
  let breakdown := get_bracket_breakdown taxable_income fs in
  let reached_brackets :=
    List.filter (reached taxable_income) (get_brackets_for_status fs) in
  sum_tax_for_bracket breakdown = calculate_marginal_tax taxable_income fs
  /\ map (fun e => (income_range e, tax_for_bracket e)) breakdown
     = map (fun b => ((min_income b, max_income b),
                      calculate_tax_for_bracket taxable_income b)) reached_brackets
  /\ (forall b, In b reached_brackets
                <-> In b (get_brackets_for_status fs) /\ min_income b < taxable_income)
  /\ StronglySorted lower_start reached_brackets.
Proof.
  cbn zeta. split; [|split; [|split]].
  - unfold sum_tax_for_bracket, get_bracket_breakdown, calculate_marginal_tax.
    apply breakdown_sum.
  - apply breakdown_brackets.
  - intros b. unfold reached. rewrite List.filter_In, ltb_lt. reflexivity.
  - apply filter_sorted, brackets_ascending.
Qed.

(** ** The calculator *)

(** C3.  A single filer aged 30 with wages 50000 and 8000 withheld gets
    the standard deduction 14600, the taxable income 35400, the tax
    liability 4016, which is 10% of 11600 plus 12% of 23800, and a refund
    of 3984. *)
Theorem calculate_tax_single_50000 :
  exists r,
    calculate_tax "single" 50000 0 0 8000 0 30 = Return r
    /\ filing_status r = SINGLE
    /\ standard_deduction r == 14600
    /\ taxable_income r == 35400
    /\ tax_liability r == 4016
    /\ tax_liability r == 0.10 * 11600 + 0.12 * 23800
    /\ refund_or_amount_owed r == 3984.
Proof.
  eexists. split; [reflexivity|].
  repeat split; vm_compute; reflexivity.
Qed.

(** The amount that [calculate_standard_deduction] adds from age 65. *)
Definition age_addon (fs : FilingStatus) : Q :=
  match fs with
  | SINGLE => 1850
  | MARRIED => 1500
  | HEAD_OF_HOUSEHOLD => 1850
  end.

(** C9.  For every filing status, [calculate_standard_deduction] at an
    age of 65 or more is the base deduction of the status plus the fixed
    amount of that status, and below 65 it is the base deduction. *)
Theorem standard_deduction_by_age (fs : FilingStatus) (age : Z) :
  ((65 <= age)%Z ->
     calculate_standard_deduction fs age = standard_deductions fs + age_addon fs)
  /\ ((age < 65)%Z -> calculate_standard_deduction fs age = standard_deductions fs).
Proof.
  unfold calculate_standard_deduction. split; intros H.
  - apply Z.leb_le in H. rewrite H. destruct fs; reflexivity.
  - apply Z.leb_gt in H. rewrite H. reflexivity.
Qed.

Lemma standard_deduction_by_age_witness :
  calculate_standard_deduction MARRIED 65 = 29200 + 1500
  /\ calculate_standard_deduction MARRIED 64 = 29200.
Proof.
  split.
  - apply (proj1 (standard_deduction_by_age MARRIED 65)). lia.
  - apply (proj2 (standard_deduction_by_age MARRIED 64)). lia.
Defined.

(** ** Input checks *)

Lemma FilingStatus_of_value_returns (value : string) :
  returns (FilingStatus_of_value value) = true <-> In value valid_statuses.
Proof.
  unfold FilingStatus_of_value, valid_statuses. cbn [map FilingStatus_value In].
  destruct (String.eqb_spec value "single") as [->|H1]; [cbn; tauto|].
  destruct (String.eqb_spec value "married") as [->|H2]; [cbn; tauto|].
  destruct (String.eqb_spec value "head_of_household") as [->|H3]; [cbn; tauto|].
  cbn. split; [discriminate|]. intros [H|[H|[H|[]]]]; congruence.
Qed.

Lemma negative_step_keeps (errors : list string) (item : string * pyval) (msg : string) :
  In msg errors -> In msg (negative_step errors item).
Proof.
  intros H. destruct item as [key [q|s]]; cbn; [|exact H].
  destruct (ltb q 0); [apply in_or_app; left|]; exact H.
Qed.

Lemma negative_loop_keeps (kwargs : kwargs_t) (errors : list string) (msg : string) :
  In msg errors -> In msg (fold_left negative_step kwargs errors).
Proof.
  revert errors. induction kwargs as [|item rest IH]; intros errors H; cbn; [exact H|].
  apply IH, negative_step_keeps, H.
Qed.

Lemma negative_loop_reports (kwargs : kwargs_t) (errors : list string) (key : string) (q : Q) :
  In (key, PNum q) kwargs -> q < 0 ->
  In (String.append key " cannot be negative") (fold_left negative_step kwargs errors).
Proof.
  revert errors. induction kwargs as [|item rest IH]; intros errors Hin Hq; [destruct Hin|].
  cbn [fold_left]. destruct Hin as [-> | Hin]; [|apply IH; assumption].
  apply negative_loop_keeps. cbn. apply ltb_lt in Hq. rewrite Hq.
  apply in_or_app. right. left. reflexivity.
Qed.

(** An error of the first loop is in the errors returned, and the inputs
    are not valid. *)
Lemma validate_inputs_errors (kwargs : kwargs_t) (v : Validation) (msg : string) :
  In msg (fold_left negative_step kwargs []) ->
  validate_inputs kwargs = Return v -> In msg (v_errors v) /\ v_is_valid v = false.
Proof.
  intros Hin. unfold validate_inputs.
  set (e0 := fold_left negative_step kwargs []) in *.
  set (e1 := match kwargs_get "filing_status" kwargs with
             | Some (PStr s) => _ | Some (PNum _) => _ | None => _ end).
  assert (H1 : In msg e1).
  { subst e1. destruct (kwargs_get "filing_status" kwargs) as [[q|s]|];
      [apply in_or_app; left; exact Hin| |exact Hin].
    destruct (existsb _ _); [exact Hin | apply in_or_app; left; exact Hin]. }
  clearbody e1. clear Hin e0.
  destruct (kwargs_get "dependents" kwargs) as [[q|s]|]; cbn [bind negative];
    try discriminate.
  - destruct (kwargs_get "age" kwargs) as [[a|s]|]; cbn [bind]; try discriminate;
      intros [= <-]; cbn [v_errors v_is_valid];
      (assert (H2 : In msg (if ltb q 0
                            then e1 ++ ["Number of dependents cannot be negative"%string]
                            else e1))
         by (destruct (ltb q 0); [apply in_or_app; left|]; exact H1));
      (split; [exact H2|]);
      (destruct (if ltb q 0 then _ else _); [destruct H2 | reflexivity]).
  - destruct (kwargs_get "age" kwargs) as [[a|s]|]; cbn [bind]; try discriminate;
      intros [= <-]; cbn [v_errors v_is_valid];
      (split; [exact H1|]); (destruct e1; [destruct H1 | reflexivity]).
Qed.

(** [validate_inputs] returns when the dependents and the age it was
    given are numbers. *)
Lemma validate_inputs_returns (kwargs : kwargs_t) :
  (forall s, kwargs_get "dependents" kwargs <> Some (PStr s)) ->
  (forall s, kwargs_get "age" kwargs <> Some (PStr s)) ->
  returns (validate_inputs kwargs) = true.
Proof.
  intros Hd Ha. unfold validate_inputs.
  destruct (kwargs_get "dependents" kwargs) as [[q|s]|]; cbn [bind negative];
    [| exfalso; apply (Hd s); reflexivity |];
    (destruct (kwargs_get "age" kwargs) as [[a|s]|]; cbn [bind returns];
     [reflexivity | exfalso; apply (Ha s); reflexivity | reflexivity]).
Qed.

(** ** The tax engine on Python's numbers *)

Section OnNumbers.

Import Binary64.

(** A number that is a [float], or an [int] of magnitude at most [b]. *)
Definition within (b : Z) (a : num) : Prop :=
  match a with
  | Int z => (Z.abs z <= b)%Z
  | Float _ => True
  end.

(** A number that is a [float] or the [int] 0: the state of [total_tax]. *)
Definition float_or_zero (a : num) : Prop :=
  a = Int 0 \/ exists f, a = Float f.

Lemma within_weaken (b b' : Z) (a : num) : (b <= b')%Z -> within b a -> within b' a.
Proof. destruct a; cbn; [lia | auto]. Qed.

Lemma float_or_zero_within (b : Z) (a : num) : (0 <= b)%Z -> float_or_zero a -> within b a.
Proof. intros Hb [-> | [f ->]]; cbn; [lia | exact I]. Qed.

Lemma to_float_within (b : Z) (a : num) :
  (b < float_limit)%Z -> within b a -> exists f, to_float a = Return f.
Proof.
  intros Hb Ha. destruct a as [z|f]; cbn [to_float]; [|eauto].
  unfold float_of_int. cbn [within] in Ha.
  destruct (Z.ltb_spec (Z.abs z) float_limit); [eauto | lia].
Qed.

(** An operation on numbers within the range of [float] returns: an
    [int] for two [int], a [float] otherwise. *)
Lemma arith_returns (on_int : Z -> Z -> Z) (on_float : float -> float -> float)
    (b : Z) (x y : num) :
  (b < float_limit)%Z -> within b x -> within b y ->
  exists c, arith on_int on_float x y = Return c
            /\ match x, y with
               | Int z, Int z' => c = Int (on_int z z')
               | _, _ => exists f, c = Float f
               end.
Proof.
  intros Hb Hx Hy.
  destruct (to_float_within b x Hb Hx) as [f Hf].
  destruct (to_float_within b y Hb Hy) as [g Hg].
  destruct x as [z|fx], y as [z'|fy]; unfold arith;
    try (rewrite Hf || cbn [to_float]); try (cbn [bind]; rewrite Hg || cbn [to_float]);
    cbn [bind]; eauto.
Qed.

Lemma add_returns (b b' : Z) (x y : num) :
  (b + b' < float_limit)%Z -> (0 <= b)%Z -> (0 <= b')%Z -> within b x -> within b' y ->
  exists c, add x y = Return c /\ within (b + b') c.
Proof.
  intros Hb H0 H0' Hx Hy.
  destruct (arith_returns Z.add PrimFloat.add (b + b') x y Hb) as (c & Hc & Hshape);
    [eapply within_weaken; [|exact Hx]; lia | eapply within_weaken; [|exact Hy]; lia |].
  exists c. split; [exact Hc|].
  destruct x as [z|fx], y as [z'|fy]; cbn [within] in *;
    [subst c; cbn; lia | destruct Hshape as [f ->]; exact I ..].
Qed.

Lemma sub_returns (b b' : Z) (x y : num) :
  (b + b' < float_limit)%Z -> (0 <= b)%Z -> (0 <= b')%Z -> within b x -> within b' y ->
  exists c, sub x y = Return c /\ within (b + b') c.
Proof.
  intros Hb H0 H0' Hx Hy.
  destruct (arith_returns Z.sub PrimFloat.sub (b + b') x y Hb) as (c & Hc & Hshape);
    [eapply within_weaken; [|exact Hx]; lia | eapply within_weaken; [|exact Hy]; lia |].
  exists c. split; [exact Hc|].
  destruct x as [z|fx], y as [z'|fy]; cbn [within] in *;
    [subst c; cbn; lia | destruct Hshape as [f ->]; exact I ..].
Qed.

Lemma mul_float_returns (b : Z) (x : num) (r : float) :
  (b < float_limit)%Z -> within b x -> exists f, mul x (Float r) = Return (Float f).
Proof.
  intros Hb Hx.
  destruct (arith_returns Z.mul PrimFloat.mul b x (Float r) Hb Hx I) as (c & Hc & Hshape).
  destruct x; destruct Hshape as [p ->]; eauto.
Qed.

Lemma min_within (b : Z) (x y : num) : within b x -> within b y -> within b (min x y).
Proof. intros Hx Hy. unfold min. destruct (lt y x); assumption. Qed.

Lemma max_within (b : Z) (x y : num) : within b x -> within b y -> within b (max x y).
Proof. intros Hx Hy. unfold max. destruct (gt y x); assumption. Qed.

(** The largest end of a bracket in the tables is below a million. *)
Definition bracket_limit : Z := 1000000.

(** A bracket as the tables have them: a rate that is a [float], a
    lower end that is an [int], and an upper end that is an [int] or
    [float('inf')]. *)
Definition table_bracket (b : TaxBracket) : Prop :=
  (exists r, rate b = Float r)
  /\ within bracket_limit (min_income b)
  /\ within bracket_limit (max_income b).

Lemma brackets_of_table (fs : FilingStatus) :
  Forall table_bracket (get_brackets_for_status fs).
Proof.
  destruct fs; cbn;
    repeat (constructor;
            [split; [eexists; reflexivity | split; cbn; try exact I; unfold bracket_limit; lia]|]);
    constructor.
Qed.

Section Loops.

Variable k : Z.
Hypothesis Hk : (k + 2 * bracket_limit < float_limit)%Z.
Hypothesis Hk0 : (0 <= k)%Z.

Variable income : num.
Hypothesis Hincome : within k income.

Lemma calculate_tax_for_bracket_returns (b : TaxBracket) :
  table_bracket b ->
  exists t, calculate_tax_for_bracket income b = Return t /\ float_or_zero t.
Proof.
  intros ([r Hr] & Hlo & Hhi). unfold calculate_tax_for_bracket.
  destruct (le income (min_income b)); [exists (Int 0); split; [reflexivity | now left]|].
  assert (Hlimit : (0 <= bracket_limit)%Z) by (unfold bracket_limit; lia).
  destruct (sub_returns k bracket_limit income (min_income b)) as (c & -> & Hc);
    try assumption; [lia|].
  destruct (sub_returns bracket_limit bracket_limit (max_income b) (min_income b))
    as (w & -> & Hw); try assumption; [lia|].
  cbn [bind]. rewrite Hr.
  destruct (mul_float_returns (k + 2 * bracket_limit) (min c w) r Hk) as [f Hf].
  { apply min_within; (eapply within_weaken; [|eassumption]); lia. }
  exists (Float f). split; [exact Hf | right; eauto].
Qed.

Lemma add_float_or_zero (total t : num) :
  float_or_zero total -> float_or_zero t ->
  exists total', add total t = Return total' /\ float_or_zero total'.
Proof.
  intros Htotal Ht.
  destruct (arith_returns Z.add PrimFloat.add 0 total t) as (c & Hc & Hshape).
  - pose proof Hk. unfold bracket_limit in *. lia.
  - apply float_or_zero_within; [lia | exact Htotal].
  - apply float_or_zero_within; [lia | exact Ht].
  - exists c. split; [exact Hc|].
    destruct Htotal as [-> | [f ->]], Ht as [-> | [g ->]]; cbn in Hshape;
      [left; exact Hshape | right; exact Hshape ..].
Qed.

Lemma marginal_step_returns (total : num) (b : TaxBracket) :
  float_or_zero total -> table_bracket b ->
  exists total', marginal_step income (Return total) b = Return total'
                 /\ float_or_zero total'.
Proof.
  intros Htotal Hb. unfold marginal_step. cbn [bind].
  destruct (gt income (min_income b)); [|eauto].
  destruct (calculate_tax_for_bracket_returns b Hb) as (t & -> & Ht). cbn [bind].
  apply add_float_or_zero; assumption.
Qed.

Lemma marginal_loop_returns (brackets : list TaxBracket) : forall total,
  Forall table_bracket brackets -> float_or_zero total ->
  exists total', fold_left (marginal_step income) brackets (Return total) = Return total'
                 /\ float_or_zero total'.
Proof.
  induction brackets as [|b rest IH]; intros total Hall Htotal; cbn [fold_left]; [eauto|].
  inversion Hall as [|? ? Hb Hrest]; subst.
  destruct (marginal_step_returns total b Htotal Hb) as (total' & -> & Htotal').
  apply IH; assumption.
Qed.

Lemma breakdown_step_returns (entries : list BracketEntry) (b : TaxBracket) :
  table_bracket b ->
  exists entries', breakdown_step income (Return entries) b = Return entries'.
Proof.
  intros Hb. unfold breakdown_step. cbn [bind].
  destruct (gt income (min_income b)); [|eauto].
  destruct (calculate_tax_for_bracket_returns b Hb) as (t & -> & _). cbn [bind].
  destruct Hb as ([r Hr] & Hlo & Hhi).
  assert (Hlimit : (0 <= bracket_limit)%Z) by (unfold bracket_limit; lia).
  destruct (arith_returns Z.mul PrimFloat.mul bracket_limit (rate b) (Int 100))
    as (p & Hp & _); [lia | rewrite Hr; exact I | cbn; unfold bracket_limit; lia |].
  unfold mul at 1. rewrite Hp. cbn [bind].
  destruct (sub_returns k bracket_limit income (min_income b)) as (c & -> & Hc);
    try assumption; [lia|].
  destruct (sub_returns bracket_limit bracket_limit (max_income b) (min_income b))
    as (w & -> & Hw); try assumption; [lia|].
  cbn [bind]. eauto.
Qed.

Lemma breakdown_loop_returns (brackets : list TaxBracket) : forall entries,
  Forall table_bracket brackets ->
  exists entries', fold_left (breakdown_step income) brackets (Return entries)
                   = Return entries'.
Proof.
  induction brackets as [|b rest IH]; intros entries Hall; cbn [fold_left]; [eauto|].
  inversion Hall as [|? ? Hb Hrest]; subst.
  destruct (breakdown_step_returns entries b Hb) as (entries' & ->).
  apply IH; assumption.
Qed.

End Loops.

(** The amounts for which [calculate_tax] is total: every [float], and
    the [int] of magnitude at most [2^1000]. *)
Definition amount_limit : Z := 2 ^ 1000.

Definition moderate (a : num) : Prop := within amount_limit a.

Lemma limits :
  (0 <= amount_limit)%Z
  /\ (3 * amount_limit + 31050 + 2 * bracket_limit < float_limit)%Z.
Proof. vm_compute. split; [discriminate | reflexivity]. Qed.

Lemma calculate_standard_deduction_returns (fs : FilingStatus) (age : num) :
  exists d, calculate_standard_deduction fs age = Return (Int d) /\ (0 <= d <= 31050)%Z.
Proof.
  unfold calculate_standard_deduction.
  destruct (ge age (Int 65)), fs; cbn; eexists; (split; [reflexivity | lia]).
Qed.

Lemma calculate_tax_returns (s : string) (w i n f dependents age : num)
    (st : FilingStatus) :
  moderate w -> moderate i -> moderate n -> moderate f ->
  FilingStatus_of_value (PyStr.lower s) = Return st ->
  exists r, calculate_tax s w i n f dependents age = Return r
            /\ filing_status r = st
            /\ (let* income := add w i in add income n) = Return (total_income r)
            /\ total_payments r = f.
Proof.
  unfold moderate. intros Hw Hi Hn Hf Hst.
  destruct limits as [H0 Hlimit].
  assert (Hb : (0 <= bracket_limit)%Z) by (unfold bracket_limit; lia).
  unfold calculate_tax. rewrite Hst. cbn [bind].
  destruct (add_returns amount_limit amount_limit w i) as (income & -> & Hincome);
    try assumption; try lia.
  cbn [bind].
  destruct (add_returns (amount_limit + amount_limit) amount_limit income n)
    as (total & Htotal_eq & Htotal); try assumption; try lia.
  rewrite Htotal_eq. cbn [bind].
  destruct (calculate_standard_deduction_returns st age) as (d & -> & Hd). cbn [bind].
  destruct (sub_returns (amount_limit + amount_limit + amount_limit) 31050 total (Int d))
    as (over & -> & Hover); try assumption; try lia; try (cbn; lia).
  cbn [bind].
  set (k := (amount_limit + amount_limit + amount_limit + 31050)%Z) in *.
  assert (Htaxable : within k (max (Int 0) over)).
  { apply max_within; [cbn; lia | exact Hover]. }
  assert (Hk : (k + 2 * bracket_limit < float_limit)%Z) by lia.
  assert (Hk0 : (0 <= k)%Z) by lia.
  destruct (marginal_loop_returns k Hk Hk0 _ Htaxable (get_brackets_for_status st) (Int 0)
              (brackets_of_table st) (or_introl eq_refl)) as (tax & Htax & Hshape).
  unfold calculate_marginal_tax. rewrite Htax. cbn [bind].
  destruct (sub_returns amount_limit 0 f tax) as (refund & -> & _);
    try assumption; try lia; try (apply float_or_zero_within; [lia | exact Hshape]).
  cbn [bind].
  destruct (breakdown_loop_returns k Hk Hk0 _ Htaxable (get_brackets_for_status st) []
              (brackets_of_table st)) as (entries & Hentries).
  unfold get_bracket_breakdown. rewrite Hentries. cbn [bind].
  eexists. split; [reflexivity|]. cbn. auto.
Qed.

End OnNumbers.

(** C10.  [calculate_tax] looks at no amount that is a [float] or an
    [int] of magnitude at most [2^1000]: whatever the wages, the interest,
    the nonemployee compensation and the withholding are among these,
    negative ones included, it returns a result as soon as the lowercase
    form of the filing status is the value of a member, with the sum of
    the three incomes as total income and the withholding as total
    payments; and it raises exactly when the lowercase form is the value
    of no member, the [ValueError] of the enumeration.  Negative numbers
    are refused by [validate_inputs]: a negative number under any key
    gives the error naming that key and a result that is not valid, and
    [validate_inputs] returns on numbers. *)
Theorem calculate_tax_checks_only_status
    (s : string) (wages interest nec withheld dependents age : Binary64.num) :
  moderate wages -> moderate interest -> moderate nec -> moderate withheld ->
  (forall st, FilingStatus_of_value (PyStr.lower s) = Return st ->
     exists r, Binary64.calculate_tax s wages interest nec withheld dependents age = Return r
               /\ Binary64.filing_status r = st
               /\ (let* income := Binary64.add wages interest in Binary64.add income nec)
                  = Return (Binary64.total_income r)
               /\ Binary64.total_payments r = withheld)
  /\ (returns (Binary64.calculate_tax s wages interest nec withheld dependents age) = false
        <-> ~ In (PyStr.lower s) valid_statuses)
  /\ (forall e, FilingStatus_of_value (PyStr.lower s) = Raise e ->
        Binary64.calculate_tax s wages interest nec withheld dependents age = Raise e)
  /\ (forall kwargs key q v,
        In (key, PNum q) kwargs -> q < 0 -> validate_inputs kwargs = Return v ->
        v_is_valid v = false /\ In (String.append key " cannot be negative") (v_errors v))
  /\ (forall kwargs,
        (forall t, kwargs_get "dependents" kwargs <> Some (PStr t)) ->
        (forall t, kwargs_get "age" kwargs <> Some (PStr t)) ->
        returns (validate_inputs kwargs) = true).
Proof.
  intros Hw Hi Hn Hf.
  assert (Hreturns : forall st, FilingStatus_of_value (PyStr.lower s) = Return st ->
            exists r, Binary64.calculate_tax s wages interest nec withheld dependents age
                      = Return r
                      /\ Binary64.filing_status r = st
                      /\ (let* income := Binary64.add wages interest
                          in Binary64.add income nec)
                         = Return (Binary64.total_income r)
                      /\ Binary64.total_payments r = withheld).
  { intros st Hst. apply calculate_tax_returns; assumption. }
  assert (Hraises : forall e, FilingStatus_of_value (PyStr.lower s) = Raise e ->
            Binary64.calculate_tax s wages interest nec withheld dependents age = Raise e).
  { intros e He. unfold Binary64.calculate_tax. rewrite He. reflexivity. }
  split; [exact Hreturns|]. split; [|split; [exact Hraises|split]].
  - rewrite <- FilingStatus_of_value_returns.
    destruct (FilingStatus_of_value (PyStr.lower s)) as [st|e] eqn:E.
    + destruct (Hreturns st eq_refl) as (r & -> & _). cbn. split; congruence.
    + rewrite (Hraises e eq_refl). cbn. split; congruence.
  - intros kwargs key q v Hin Hq Hv.
    destruct (validate_inputs_errors kwargs v _
                (negative_loop_reports kwargs [] key q Hin Hq) Hv).
    auto.
  - apply validate_inputs_returns.
Qed.

(** Negative amounts everywhere under the status "Single", an [int] and
    three [float], and negative wages given to [validate_inputs]. *)
Lemma calculate_tax_checks_only_status_witness :
  (exists r, Binary64.calculate_tax "Single" (Binary64.Int (-50000)) (Binary64.Float (-1.5))
               (Binary64.Float (-2)) (Binary64.Float (-8000)) (Binary64.Int 0)
               (Binary64.Int 30) = Return r
             /\ Binary64.filing_status r = SINGLE
             /\ Binary64.total_income r = Binary64.Float (-50003.5)
             /\ Binary64.total_payments r = Binary64.Float (-8000))
  /\ (exists v, validate_inputs [("filing_status", PStr "single"); ("wages", PNum (-50000))]
                = Return v
                /\ v_is_valid v = false
                /\ In "wages cannot be negative"%string (v_errors v)).
Proof.
  split.
  - destruct (proj1 (calculate_tax_checks_only_status "Single"
                       (Binary64.Int (-50000)) (Binary64.Float (-1.5))
                       (Binary64.Float (-2)) (Binary64.Float (-8000)) (Binary64.Int 0)
                       (Binary64.Int 30) ltac:(vm_compute; discriminate) I I I)
                    SINGLE eq_refl) as (r & Hr & Hst & Htotal & Hpaid).
    exists r. split; [exact Hr|]. split; [exact Hst|]. split; [|exact Hpaid].
    injection Htotal as Htotal. symmetry. exact Htotal.
  - eexists. split; [vm_compute; reflexivity|].
    apply (proj1 (proj2 (proj2 (proj2
             (calculate_tax_checks_only_status "Single"
                (Binary64.Int 0) (Binary64.Int 0) (Binary64.Int 0) (Binary64.Int 0)
                (Binary64.Int 0) (Binary64.Int 0)
                ltac:(vm_compute; discriminate) ltac:(vm_compute; discriminate)
                ltac:(vm_compute; discriminate) ltac:(vm_compute; discriminate)))))
             [("filing_status", PStr "single"); ("wages", PNum (-50000))] "wages" (-50000)).
    + right. left. reflexivity.
    + reflexivity.
    + vm_compute. reflexivity.
Defined.

(** With the status "single", wages of -1 and an interest of [10^400],
    an [int] beyond the range of [float], [calculate_tax] raises
    [OverflowError] in the top bracket. *)
Lemma calculate_tax_overflow :
  FilingStatus_of_value (PyStr.lower "single") = Return SINGLE
  /\ Binary64.lt (Binary64.Int (-1)) (Binary64.Int 0) = true
  /\ Binary64.calculate_tax "single" (Binary64.Int (-1)) (Binary64.Int (10 ^ 400))
       (Binary64.Int 0) (Binary64.Int 0) (Binary64.Int 0) (Binary64.Int 0)
     = Raise (OverflowError "int too large to convert to float").
Proof. repeat split; vm_compute; reflexivity. Qed.

(** ** Classification *)

Section MaxBy.

Context {A : Type} (key : A -> Q).

(** [max_by] returns the first item of largest key: the items before it
    have a smaller key and the items after it a key that is not larger. *)
Lemma max_by_first_largest (items : list A) : forall best : A,
  exists pre post,
    best :: items = pre ++ max_by key best items :: post
    /\ Forall (fun x => key x < key (max_by key best items)) pre
    /\ Forall (fun x => key x <= key (max_by key best items)) post.
Proof.
  induction items as [|item rest IH]; intros best; cbn [max_by].
  - exists [], []. repeat split; constructor.
  - destruct (ltb_cases (key best) (key item)) as [[-> Hlt] | [-> Hge]].
    + destruct (IH item) as (pre & post & Heq & Hpre & Hpost).
      remember (max_by key item rest) as r eqn:Hr. clear Hr IH.
      exists (best :: pre), post. split; [cbn; f_equal; exact Heq|].
      split; [|exact Hpost]. constructor; [|exact Hpre].
      destruct pre as [|p pre]; cbn in Heq; injection Heq as Hp Hrest.
      * subst r. exact Hlt.
      * subst p. inversion Hpre; subst. lra.
    + destruct (IH best) as (pre & post & Heq & Hpre & Hpost).
      remember (max_by key best rest) as r eqn:Hr. clear Hr IH.
      destruct pre as [|p pre]; cbn in Heq; injection Heq as Hp Hrest.
      * subst r rest. exists [], (item :: post).
        split; [reflexivity|]. split; [constructor|].
        constructor; [exact Hge | exact Hpost].
      * subst p rest. exists (best :: item :: pre), post.
        split; [reflexivity|]. split; [|exact Hpost].
        inversion Hpre; subst. constructor; [assumption|].
        constructor; [lra | assumption].
Qed.

End MaxBy.

(** The place of a type in the order of the enumeration. *)
Definition priority (t : DocumentType) : nat :=
  match t with
  | W2 => 0
  | INT_1099 => 1
  | NEC_1099 => 2
  | UNKNOWN => 3
  end.

Lemma max_of_three_scores (a b c : Q) :
  let items := [(W2, a); (INT_1099, b); (NEC_1099, c)] in
  let best := max_by snd (W2, a) [(INT_1099, b); (NEC_1099, c)] in
  In best items
  /\ forall t score, In (t, score) items ->
       score <= snd best
       /\ (score == snd best -> (priority (fst best) <= priority t)%nat).
Proof.
  cbn zeta.
  destruct (max_by_first_largest snd [(INT_1099, b); (NEC_1099, c)] (W2, a))
    as (pre & post & Heq & Hpre & Hpost).
  revert Heq Hpre Hpost.
  generalize (max_by snd (W2, a) [(INT_1099, b); (NEC_1099, c)]).
  intros [rt rc] Heq Hpre Hpost. cbn [fst snd] in *.
  split; [rewrite Heq; apply in_or_app; right; left; reflexivity|].
  intros t score Hin.
  destruct pre as [|p1 [|p2 [|p3 pre]]]; cbn in Heq.
  - injection Heq as <- <- <-. cbn [priority]. split; [|intros; lia].
    destruct Hin as [[= <- <-] | Hin]; [lra|].
    rewrite List.Forall_forall in Hpost. apply (Hpost _ Hin).
  - injection Heq as <- <- <- <-.
    inversion Hpre as [|? ? H1 _]; subst. cbn in H1.
    inversion Hpost as [|? ? H3 _]; subst. cbn in H3.
    destruct Hin as [[= <- <-] | [[= <- <-] | [[= <- <-] | []]]].
    + split; [lra | intros; exfalso; lra].
    + split; [lra | intros; cbn; lia].
    + split; [lra | intros; cbn; lia].
  - injection Heq as <- <- <- <-.
    inversion Hpre as [|? ? H1 Hpre']; subst. cbn in H1.
    inversion Hpre' as [|? ? H2 _]; subst. cbn in H2.
    destruct Hin as [[= <- <-] | [[= <- <-] | [[= <- <-] | []]]].
    + split; [lra | intros; exfalso; lra].
    + split; [lra | intros; exfalso; lra].
    + split; [lra | intros; cbn; lia].
  - injection Heq as _ _ _ Heq. destruct pre; discriminate.
Qed.

(** *** Occurrences of a string in a text *)

Lemma append_empty (b : string) : String.append EmptyString b = b.
Proof. reflexivity. Qed.

Lemma append_cons (c : ascii) (a b : string) :
  String.append (String c a) b = String c (String.append a b).
Proof. reflexivity. Qed.

Lemma prefix_refl_append (a b : string) : String.prefix a (String.append a b) = true.
Proof.
  induction a as [|c a IH]; rewrite ?append_empty, ?append_cons; cbn [String.prefix];
    [destruct b; reflexivity|].
  destruct (ascii_dec c c); [exact IH | contradiction].
Qed.

Lemma prefix_append (l s : string) :
  String.prefix l s = true -> s = String.append l (PyStr.drop (String.length l) s).
Proof.
  revert s. induction l as [|c l IH]; intros s; cbn [String.length PyStr.drop];
    [rewrite append_empty; reflexivity|].
  destruct s as [|d s]; cbn [String.prefix]; [discriminate|].
  destruct (ascii_dec c d) as [->|]; [|discriminate].
  intros H. rewrite append_cons. f_equal. cbn [PyStr.drop]. apply IH, H.
Qed.

Lemma contains_append (stem sub rest : string) :
  PyStr.contains sub (String.append stem (String.append sub rest)) = true.
Proof.
  induction stem as [|c stem IH]; rewrite ?append_empty, ?append_cons.
  - destruct (String.append sub rest) eqn:E; cbn [PyStr.contains];
      rewrite <- E, prefix_refl_append; reflexivity.
  - cbn [PyStr.contains]. rewrite IH. apply orb_true_r.
Qed.

(** [sub] occurs in [s]: some text, then [sub], then some text. *)
Definition occurs (sub s : string) : Prop :=
  exists before after, s = String.append before (String.append sub after).

(** [sub in s] is true exactly when [sub] occurs in [s]. *)
Lemma contains_occurs (sub s : string) : PyStr.contains sub s = true <-> occurs sub s.
Proof.
  split.
  - induction s as [|c s IH]; cbn [PyStr.contains]; intros H;
      apply orb_true_iff in H; destruct H as [H | H]; try discriminate.
    + exists EmptyString, (PyStr.drop (String.length sub) EmptyString).
      rewrite append_empty. apply prefix_append, H.
    + exists EmptyString, (PyStr.drop (String.length sub) (String c s)).
      rewrite append_empty. apply prefix_append, H.
    + destruct (IH H) as (before & after & ->).
      exists (String c before), after. reflexivity.
  - intros (before & after & ->). apply contains_append.
Qed.

(** The indicators of a type. *)
Definition indicators (t : DocumentType) : list string :=
  match t with
  | W2 => w2_indicators
  | INT_1099 => int_indicators
  | NEC_1099 => nec_indicators
  | UNKNOWN => []
  end.

(** [indicator_score] counts the indicators that occur in the text. *)
Lemma indicator_score_counts (l : list string) (text_upper : string) :
  List.NoDup l ->
  exists present,
    List.NoDup present
    /\ (forall indicator,
          In indicator present <-> In indicator l /\ occurs indicator text_upper)
    /\ indicator_score l text_upper = length present.
Proof.
  intros Hl.
  exists (List.filter (fun indicator => PyStr.contains indicator text_upper) l).
  split; [apply List.NoDup_filter, Hl|]. split; [|reflexivity].
  intros indicator. rewrite List.filter_In, contains_occurs. reflexivity.
Qed.

Lemma indicators_distinct (t : DocumentType) : List.NoDup (indicators t).
Proof.
  destruct t; cbn; repeat (constructor; [cbn; intuition discriminate|]); constructor.
Qed.

(** C7.  Whatever the text in upper case is, the candidates are W2,
    INT_1099 and NEC_1099 in this order; the score of a candidate is the
    number of its indicators that occur in the text over the number of
    its indicators; the type returned is a candidate, returned with its
    own score; no candidate has a larger score; and a candidate with the
    same score does not come before it in the order W2, INT_1099,
    NEC_1099.  [detect_document_type] is this choice on the text in upper
    case.  So a text with the three indicators of the form 1099-INT is an
    INT_1099 of score 1, a text with the indicator that the two forms
    1099 share is an INT_1099 of score 1/3, and a text with one indicator
    of the W-2 and two of the form 1099-NEC is a NEC_1099 of score 2/3. *)
Theorem detect_document_type_max_score (text_upper : string) :
  let best_type := fst (best_type_of text_upper) in
  let confidence := snd (best_type_of text_upper) in
  (forall text, detect_document_type text = best_type_of (PyStr.upper text))
  /\ map fst (scores text_upper) = [W2; INT_1099; NEC_1099]
  /\ (forall t score, In (t, score) (scores text_upper) ->
        exists present,
          List.NoDup present
          /\ (forall indicator,
                In indicator present
                <-> In indicator (indicators t) /\ occurs indicator text_upper)
          /\ score == inject_Z (Z.of_nat (length present))
                      / inject_Z (Z.of_nat (length (indicators t))))
  /\ In (best_type, confidence) (scores text_upper)
  /\ (forall t score, In (t, score) (scores text_upper) ->
        score <= confidence
        /\ (score == confidence -> (priority best_type <= priority t)%nat))
  /\ (fst (detect_document_type "Form 1099-INT Interest Income Payer's name") = INT_1099
      /\ snd (detect_document_type "Form 1099-INT Interest Income Payer's name") == 1)
  /\ (fst (detect_document_type "Payer's name") = INT_1099
      /\ snd (detect_document_type "Payer's name") == 1 / 3)
  /\ (fst (detect_document_type "Form W-2, Form 1099-NEC Nonemployee compensation")
      = NEC_1099
      /\ snd (detect_document_type "Form W-2, Form 1099-NEC Nonemployee compensation")
         == 2 / 3).
Proof.
  cbn zeta. split; [reflexivity|]. split; [reflexivity|]. split.
  { intros t score Hin.
    assert (Hscore : score = ratio (indicator_score (indicators t) text_upper)
                                   (length (indicators t))).
    { destruct Hin as [[= <- <-] | [[= <- <-] | [[= <- <-] | []]]]; reflexivity. }
    destruct (indicator_score_counts (indicators t) text_upper (indicators_distinct t))
      as (present & Hnodup & Hpresent & Hcount).
    exists present. split; [exact Hnodup|]. split; [exact Hpresent|].
    rewrite Hscore, Hcount. reflexivity. }
  split; [|split].
  - rewrite <- surjective_pairing.
    apply (max_of_three_scores
             (ratio (indicator_score w2_indicators text_upper) (length w2_indicators))
             (ratio (indicator_score int_indicators text_upper) (length int_indicators))
             (ratio (indicator_score nec_indicators text_upper) (length nec_indicators))).
  - apply (max_of_three_scores
             (ratio (indicator_score w2_indicators text_upper) (length w2_indicators))
             (ratio (indicator_score int_indicators text_upper) (length int_indicators))
             (ratio (indicator_score nec_indicators text_upper) (length nec_indicators))).
  - repeat split; vm_compute; reflexivity.
Qed.

(** ** Validation *)

Lemma DocumentType_eqb_eq (a b : DocumentType) : DocumentType_eqb a b = true <-> a = b.
Proof. destruct a, b; cbn; split; congruence. Qed.

(** A W-2 with wages read and confidence 0. *)
Definition unsure_w2 : ExtractedData :=
  {| document_type := W2;
     confidence_score := 0;
     data := <["wages" := PNum 50000]> ∅;
     raw_text := "50,000";
     filename := "w2.pdf" |}.

(** C6.  The empty text is classified as W2, the first type of the
    order, with confidence 0; and [validate_extracted_data] gives
    [is_valid = false] for every extraction result of confidence 0. *)
Theorem empty_text_is_w2_and_invalid (e : ExtractedData) :
  fst (detect_document_type "") = W2
  /\ snd (detect_document_type "") == 0
  /\ (confidence_score e == 0 -> is_valid (validate_extracted_data e) = false).
Proof.
  split; [reflexivity|]. split; [reflexivity|].
  intros H. unfold validate_extracted_data.
  assert (Hlt : ltb (confidence_score e) 0.5 = true) by (apply ltb_lt; rewrite H; reflexivity).
  cbn zeta. rewrite Hlt. cbn [app].
  destruct (DocumentType_eqb (document_type e) UNKNOWN); cbn; apply andb_false_r.
Qed.

Lemma empty_text_is_w2_and_invalid_witness :
  confidence_score unsure_w2 == 0 /\ is_valid (validate_extracted_data unsure_w2) = false.
Proof.
  split; [reflexivity|].
  apply (proj2 (proj2 (empty_text_is_w2_and_invalid unsure_w2))). reflexivity.
Defined.

(** C8.  For every extraction result, [is_valid] is true exactly when the
    extracted fields are not empty and no error was raised, and no error
    is raised exactly when the confidence is at least 0.5 and the type is
    not UNKNOWN; warnings and suggestions take no part in it. *)
Theorem validate_is_valid_iff (e : ExtractedData) :
  (is_valid (validate_extracted_data e) = true
     <-> data e <> ∅ /\ errors (validate_extracted_data e) = [])
  /\ (errors (validate_extracted_data e) = []
     <-> 0.5 <= confidence_score e /\ document_type e <> UNKNOWN).
Proof.
  unfold validate_extracted_data; cbn zeta; cbn [is_valid errors].
  split.
  - rewrite andb_true_iff, negb_true_iff, bool_decide_eq_false, Nat.eqb_eq, length_zero_iff_nil.
    reflexivity.
  - destruct (ltb_cases (confidence_score e) 0.5) as [[-> Hc] | [-> Hc]];
      destruct (DocumentType_eqb (document_type e) UNKNOWN) eqn:Ht; cbn [app];
      (split; [intros H; try discriminate H | intros [H1 H2]]).
    + exfalso; lra.
    + exfalso; lra.
    + apply DocumentType_eqb_eq in Ht. contradiction.
    + split; [exact Hc|]. intros Heq. rewrite Heq in Ht. discriminate.
    + reflexivity.
Qed.

(** A W-2 read with confidence 0.5 and no withholding found: a warning,
    and a valid result. *)
Lemma validate_is_valid_iff_witness :
  let e := {| document_type := W2;
              confidence_score := 0.5;
              data := <["wages" := PNum 50000]> ∅;
              raw_text := "50,000";
              filename := "w2.pdf" |} in
  is_valid (validate_extracted_data e) = true
  /\ warnings (validate_extracted_data e) = ["Missing required field: federal_tax_withheld"%string].
Proof.
  cbn zeta. split; [|reflexivity].
  apply (proj1 (validate_is_valid_iff _)). split.
  - intros H. apply (f_equal (fun m => m !! "wages"%string)) in H. vm_compute in H. discriminate.
  - reflexivity.
Defined.

(** ** Confidence of a document that repeats its lines *)

(** [float] on the strings of decimal digits, where it reads the integer
    written; [None] on every other string. *)
Definition digits_float (s : string) : option Q :=
  if PyStr.isdigit s then Some (inject_Z (PyStr.int s)) else None.

(** The lines of one copy of a W-2. *)
Definition w2_copy : list string :=
  [ "Form W-2 Wage and Tax Statement";
    "11-1111111 50,000 8,000";
    "50,000 3,100";
    "50,000 725";
    "50,000 2,000 CA" ].

Definition w2_one_copy : string := PyStr.join_lines w2_copy.

(** The text of a file that holds the same W-2 twice. *)
Definition w2_two_copies : string := PyStr.join_lines (w2_copy ++ w2_copy).

(** The strings that one turn of the loop over the lines of a W-2 gives
    to [float]. *)
Definition w2_line_reads (line : string) : list string :=
  let parts := map (PyStr.remove ",") (PyStr.split line) in
  let n := length parts in
  if PyStr.contains "11-1111111" line && PyStr.contains "50,000" line
     && PyStr.contains "8,000" line then
    if (3 <=? n)%nat then [nth 1 parts EmptyString; nth 2 parts EmptyString] else []
  else if PyStr.contains "50,000" line && PyStr.contains "3,100" line then
    if (2 <=? n)%nat then [nth 0 parts EmptyString; nth 1 parts EmptyString] else []
  else if PyStr.contains "50,000" line && PyStr.contains "725" line then
    if (2 <=? n)%nat then [nth 0 parts EmptyString; nth 1 parts EmptyString] else []
  else if PyStr.contains "50,000" line && PyStr.contains "2,000" line
          && PyStr.contains "CA" line then
    if (3 <=? n)%nat then [nth 0 parts EmptyString; nth 1 parts EmptyString] else []
  else [].

Lemma to_float_part (f : string -> option Q) (parts : list string) (i : nat) :
  (i < length parts)%nat ->
  to_float f (part parts i)
  = match f (nth i (map (PyStr.remove ",") parts) EmptyString) with
    | Some q => Return q
    | None => Raise (ValueError "could not convert string to float")
    end.
Proof.
  intros Hi. unfold to_float, part.
  rewrite (nth_indep (map _ parts) EmptyString (PyStr.remove "," EmptyString))
    by (rewrite length_map; exact Hi).
  rewrite map_nth. reflexivity.
Qed.

Lemma w2_line_step_ext (f g : string -> option Q) (line : string) (st : result parse_state) :
  (forall s, In s (w2_line_reads line) -> f s = g s) ->
  w2_line_step f st line = w2_line_step g st line.
Proof.
  intros H. destruct st as [[d n]|ex]; [|reflexivity].
  unfold w2_line_step, w2_line_reads in *. cbn [bind]. cbn zeta in H.
  rewrite length_map in H.
  repeat match goal with
  | |- context [if ?c then _ else _] =>
      lazymatch c with
      | (_ <=? _)%nat => fail
      | _ => destruct c
      end
  end; try reflexivity.
  all: match goal with |- context [(?k <=? ?n)%nat] =>
         destruct (Nat.leb_spec k n) as [Hn|Hn]; [|reflexivity] end.
  all: rewrite !to_float_part by lia.
  all: rewrite (H _ (or_introl eq_refl)), (H _ (or_intror (or_introl eq_refl))).
  all: reflexivity.
Qed.

Lemma parse_w2_data_ext (f g : string -> option Q) (text : string) :
  (forall line, In line (PyStr.split_on "010" text) ->
     forall s, In s (w2_line_reads line) -> f s = g s) ->
  parse_w2_data f text = parse_w2_data g text.
Proof.
  intros H. unfold parse_w2_data. cbn zeta.
  assert (Hloop : forall lines st,
             incl lines (PyStr.split_on "010" text) ->
             fold_left (w2_line_step f) lines st = fold_left (w2_line_step g) lines st).
  { induction lines as [|l rest IH]; intros st Hincl; cbn [fold_left]; [reflexivity|].
    rewrite (w2_line_step_ext f g l st) by (apply H, Hincl; left; reflexivity).
    apply IH. intros y Hy. apply Hincl. right. exact Hy. }
  rewrite Hloop by apply incl_refl. reflexivity.
Qed.

Lemma process_w2_ext (f g : string -> option Q) (text filename : string) :
  fst (detect_document_type text) = W2 ->
  parse_w2_data f text = parse_w2_data g text ->
  process_document f text filename = process_document g text filename.
Proof.
  intros Htype Hparse. unfold process_document.
  destruct text as [|c text]; [reflexivity|].
  destruct (detect_document_type (String c text)) as [t confidence].
  cbn [fst] in Htype. subst t. rewrite Hparse. reflexivity.
Qed.

(** With any [float] that reads strings of digits as Python does, the
    file of two copies is processed as with [digits_float]: the parser
    asks for the amounts of its lines only. *)
Lemma two_copies_read_digits (py_float : string -> option Q) (filename : string) :
  (forall s, PyStr.isdigit s = true -> py_float s = Some (inject_Z (PyStr.int s))) ->
  process_document py_float w2_two_copies filename
  = process_document digits_float w2_two_copies filename.
Proof.
  intros Hfloat. apply process_w2_ext; [vm_compute; reflexivity|].
  apply parse_w2_data_ext. intros line Hline s Hs.
  assert (Hdigits : forallb (fun l => forallb PyStr.isdigit (w2_line_reads l))
                            (PyStr.split_on "010" w2_two_copies) = true)
    by (vm_compute; reflexivity).
  rewrite forallb_forall in Hdigits. specialize (Hdigits line Hline).
  rewrite forallb_forall in Hdigits. specialize (Hdigits s Hs).
  unfold digits_float. rewrite Hdigits. apply Hfloat, Hdigits.
Qed.

(** A boolean test that holds of what a computation returns. *)
Definition returns_with {A : Type} (test : A -> bool) (m : result A) : bool :=
  match m with
  | Return a => test a
  | Raise _ => false
  end.

Lemma returns_with_true {A : Type} (test : A -> bool) (m : result A) :
  returns_with test m = true -> exists a, m = Return a /\ test a = true.
Proof.
  destruct m as [a|e]; cbn; [|discriminate]. intros H. exists a. auto.
Qed.

(** The type is W2, [fields] fields are populated and the confidence is
    [score]. *)
Definition w2_with (fields : nat) (score : Q) (e : ExtractedData) : bool :=
  DocumentType_eqb (document_type e) W2
  && (size (data e) =? fields)%nat
  && Qeq_bool (confidence_score e) score.

Lemma w2_with_true (fields : nat) (score : Q) (e : ExtractedData) :
  w2_with fields score e = true ->
  document_type e = W2 /\ size (data e) = fields /\ confidence_score e == score.
Proof.
  unfold w2_with. rewrite !andb_true_iff, DocumentType_eqb_eq, Nat.eqb_eq, Qeq_bool_iff.
  tauto.
Qed.

(** C4, at a text that repeats its lines.  Whatever [float] does outside
    the strings of digits, the file that holds one W-2 twice is processed
    without an exception, as a W2 with 11 fields populated of the 13
    expected, and with a confidence score of 43/39, which is above 1: the
    four structural lines are counted once per copy, 18 matches in all,
    and with the two fields found by the expressions that makes 20 matches
    for 13 expected fields, averaged with the classifier confidence 2/3.
    The single copy populates the same 11 fields and has the score
    59/78. *)
Theorem repeated_lines_confidence_above_one (py_float : string -> option Q) :
  (forall s, PyStr.isdigit s = true -> py_float s = Some (inject_Z (PyStr.int s))) ->
  exists once twice,
    process_document digits_float w2_one_copy "w2.pdf" = Return once
    /\ process_document py_float w2_two_copies "w2.pdf" = Return twice
    /\ document_type once = W2 /\ document_type twice = W2
    /\ size (data once) = 11%nat /\ size (data twice) = 11%nat
    /\ confidence_score once == 59 # 78
    /\ confidence_score twice == 43 # 39
    /\ 1 < confidence_score twice.
Proof.
  intros Hfloat.
  destruct (returns_with_true (w2_with 11 (59 # 78))
              (process_document digits_float w2_one_copy "w2.pdf"))
    as (once & Honce & Hone); [vm_compute; reflexivity|].
  destruct (returns_with_true (w2_with 11 (43 # 39))
              (process_document digits_float w2_two_copies "w2.pdf"))
    as (twice & Htwice & Htwo); [vm_compute; reflexivity|].
  apply w2_with_true in Hone, Htwo.
  destruct Hone as (H1 & H2 & H3), Htwo as (H4 & H5 & H6).
  exists once, twice. split; [exact Honce|].
  split; [rewrite (two_copies_read_digits py_float _ Hfloat); exact Htwice|].
  repeat (split; [assumption|]). rewrite H6. reflexivity.
Qed.

Lemma repeated_lines_confidence_above_one_witness :
  exists e, process_document digits_float w2_two_copies "w2.pdf" = Return e
            /\ 1 < confidence_score e.
Proof.
  destruct (repeated_lines_confidence_above_one digits_float)
    as (once & twice & _ & H2 & _ & _ & _ & _ & _ & _ & H9).
  - intros s Hs. unfold digits_float. rewrite Hs. reflexivity.
  - exists twice. split; [exact H2 | exact H9].
Defined.

(** ** Aggregation over a batch *)


Section Aggregation.

Import Routes.



Definition amount (v : pyval) : option Q :=
  match v with
  | PNum q => Some q
  | PStr _ => None
  end.







End Aggregation.


Section Totals.

Import Routes.







End Totals.

(** A W-2, a 1099-INT, a file that failed and a 1099-NEC. *)
Definition batch : list (string * result ExtractedData) :=
  [ ("a.pdf", Return (mkExtractedData W2 0.9
        (<["federal_tax_withheld" := PNum 8000]> (<["wages" := PNum 50000]> ∅)) "" "a.pdf"));
    ("b.pdf", Return (mkExtractedData INT_1099 0.8
        (<["interest_income" := PNum 300]> ∅) "" "b.pdf"));
    ("c.pdf", Raise (ValueError "could not convert string to float"));
    ("d.pdf", Return (mkExtractedData NEC_1099 0.7
        (<["nonemployee_compensation" := PNum 10000]> ∅) "" "d.pdf")) ].




